(** * Magazine-style poster generator: layout state machine and export pipeline

    A shallow embedding of the three revisions of the [PosterGenerator]
    component found in the repository:

    - [Legacy]      src/components/PosterGenerator.tsx (title, QR code and a
                    react-resizable image; no subtitle, image not draggable);
    - [Permissive]  the first re-resizable revision (image optional, width and
                    height validated as non-empty strings);
    - [Strict]      the second re-resizable revision (image checked, width and
                    height validated as numbers, positions reset by an effect).

    Positions, sizes and canvas dimensions are JavaScript numbers,
    represented by exact rationals [Q]: the rounding of binary64 arithmetic
    and the infinities are outside the model, and NaN appears only as the
    reading of a form text that is not a number.

    The width and height fields observed through [watch] are kept as the
    numbers they denote.  In the strict revision an edited field holds a
    text, the geometry computation stores that text in [imageSize], and the
    [+] of [onResizeStop] then appends to it instead of adding.  States in
    which a size cell holds a text that a resize commit has appended to are
    outside the model: the statements about the strict revision that depend
    on the size cells range over the runs that do not reach such a state.

    A position cell is the offset a Draggable wrapper applies to its layer:
    a translation from the place the layer has in the layout of the poster
    element.  Where a layer is, is that place moved by the cell. *)

From Stdlib Require Import QArith Qminmax ZArith String Ascii List Bool Lia Lqa.
Import ListNotations.

Open Scope string_scope.
Open Scope Q_scope.

(** ** Numbers and plain data *)

(** [a > b] on JavaScript numbers, as a boolean. *)
Definition Qgtb (a b : Q) : bool := negb (Qle_bool a b).

Record Position : Set := mkPosition { x : Q; y : Q }.
Record Size : Set := mkSize { width : Q; height : Q }.

(** ** Image geometry

    The body of [img.onload] in the geometry effect of both re-resizable
    revisions and in [onSubmit] of the strict one:
<<
    const aspectRatio = img.width / img.height;
    let newWidth = watchWidth;
    let newHeight = newWidth / aspectRatio;
    if (newHeight > watchHeight) {
      newHeight = watchHeight;
      newWidth = newHeight * aspectRatio;
    }
    setImageSize({ width: newWidth, height: newHeight });
>>
    The function returns the argument handed to [setImageSize]. *)
Definition imageGeometry (imgWidth imgHeight watchWidth watchHeight : Q) : Size :=
  let aspectRatio := imgWidth / imgHeight in
  let newWidth := watchWidth in
  let newHeight := newWidth / aspectRatio in
  if Qgtb newHeight watchHeight
  then let newHeight' := watchHeight in
       let newWidth' := newHeight' * aspectRatio in
       {| width := newWidth'; height := newHeight' |}
  else {| width := newWidth; height := newHeight |}.

(** ** Form validation

    The [width] and [height] members of [formSchema].  A raw field value is
    whatever the form library hands to the resolver: the text of an input, a
    number (the numeric defaults of the strict revision), or nothing. *)

Inductive JsNumber : Set :=
| Finite (q : Q)
| NaN.

Inductive FieldValue : Set :=
| VString (s : string)
| VNumber (n : JsNumber)
| VUndefined.

(** Issue kinds of a failed parse, with the message given in the schema. *)
Inductive ZodIssue : Set :=
| invalid_type
| too_small (message : string)
| invalid_string (message : string).

Inductive SafeParse (A : Type) : Type :=
| success (data : A)
| failure (issue : ZodIssue).
Arguments success {A} data.
Arguments failure {A} issue.

Definition isSuccess {A : Type} (r : SafeParse A) : bool :=
  match r with success _ => true | failure _ => false end.

(** The character class [\d]. *)
Definition isDigit (c : ascii) : bool :=
  let n := N_of_ascii c in (48 <=? n)%N && (n <=? 57)%N.

Definition digitValue (c : ascii) : Z := Z.of_N (N_of_ascii c) - 48.

Fixpoint allDigits (s : string) : bool :=
  match s with
  | EmptyString => true
  | String c rest => isDigit c && allDigits rest
  end.

(** The regular expression [/^\d+$/]: one or more digits and nothing else. *)
Definition matchesDigits (s : string) : bool :=
  match s with
  | EmptyString => false
  | String _ _ => allDigits s
  end.

Fixpoint digitsValue (acc : Z) (s : string) : Z :=
  match s with
  | EmptyString => acc
  | String c rest => digitsValue (10 * acc + digitValue c) rest
  end.

Fixpoint splitAtDot (s : string) : string * option string :=
  match s with
  | EmptyString => (EmptyString, None)
  | String c rest =>
      if Ascii.eqb c "."%char then (EmptyString, Some rest)
      else let (a, b) := splitAtDot rest in (String c a, b)
  end.

(** Unsigned decimal literal: digits, optionally followed by a dot and more
    digits, or a dot followed by digits. *)
Definition unsignedDecimal (s : string) : JsNumber :=
  match splitAtDot s with
  | (int, None) =>
      if matchesDigits int then Finite (inject_Z (digitsValue 0 int)) else NaN
  | (int, Some frac) =>
      if allDigits int && allDigits frac
         && negb (String.eqb int "" && String.eqb frac "")
      then Finite (inject_Z (digitsValue 0 (int ++ frac))
                   / inject_Z (10 ^ Z.of_nat (String.length frac)))
      else NaN
  end.

Definition negate (n : JsNumber) : JsNumber :=
  match n with Finite q => Finite (- q) | NaN => NaN end.

(** The conversion [Number(text)] on the plain decimal literals: the empty
    text is [0], an optional sign may precede the digits, anything else reads
    as [NaN].  Exponents, hexadecimal literals, [Infinity] and surrounding
    white space are not covered. *)
Definition Number (s : string) : JsNumber :=
  match s with
  | EmptyString => Finite 0
  | String c rest =>
      if Ascii.eqb c "-"%char then negate (unsignedDecimal rest)
      else if Ascii.eqb c "+"%char then unsignedDecimal rest
      else unsignedDecimal s
  end.

(** [z.string()]: the value must be a string. *)
Definition z_string (v : FieldValue) : SafeParse string :=
  match v with VString s => success s | _ => failure invalid_type end.

(** [z.number()]: the value must be a number other than NaN. *)
Definition z_number (v : FieldValue) : SafeParse Q :=
  match v with VNumber (Finite q) => success q | _ => failure invalid_type end.

Definition z_regex (re : string -> bool) (message : string)
    (r : SafeParse string) : SafeParse string :=
  match r with
  | success s => if re s then success s else failure (invalid_string message)
  | failure i => failure i
  end.

(** [.min(n, message)] on a string schema bounds the length. *)
Definition z_string_min (n : nat) (message : string)
    (r : SafeParse string) : SafeParse string :=
  match r with
  | success s =>
      if (n <=? String.length s)%nat then success s
      else failure (too_small message)
  | failure i => failure i
  end.

(** [.min(n, message)] on a number schema bounds the value. *)
Definition z_number_min (n : Q) (message : string)
    (r : SafeParse Q) : SafeParse Q :=
  match r with
  | success q => if Qle_bool n q then success q else failure (too_small message)
  | failure i => failure i
  end.

Definition z_transform {A B : Type} (f : A -> B) (r : SafeParse A) : SafeParse B :=
  match r with
  | success a => success (f a)
  | failure i => failure i
  end.

(** ** Notifications, downloads and promises *)

Inductive ToastVariant : Set := default_variant | destructive.

(** The data URL produced by the rasteriser, kept as the picture it encodes. *)
Record RasterImage : Set := mkRaster {
  mime : string;
  pixelWidth : Q;
  pixelHeight : Q
}.

Inductive Effect : Set :=
| toast (title description : string) (variant : ToastVariant)
| download (filename : string) (href : RasterImage).

Inductive Promise (A : Type) : Type :=
| Fulfilled (value : A)
| Rejected (reason : string).
Arguments Fulfilled {A} value.
Arguments Rejected {A} reason.

(** [p.then(f)]: [f] runs on fulfilment, a rejection is passed on. *)
Definition promise_then {A : Type} (p : Promise A) (onFulfilled : A -> list Effect)
  : list Effect * Promise unit :=
  match p with
  | Fulfilled v => (onFulfilled v, Fulfilled tt)
  | Rejected r => ([], Rejected r)
  end.

(** [p.catch(g)]: [g] runs on rejection and settles the chain. *)
Definition promise_catch {A : Type} (p : Promise A) (onRejected : string -> list Effect)
  : list Effect * Promise unit :=
  match p with
  | Fulfilled _ => ([], Fulfilled tt)
  | Rejected r => (onRejected r, Fulfilled tt)
  end.

(** ** Layers and the composition surface *)

Inductive Layer : Set := Image | Title | Subtitle | QRCode.

Definition Layer_eqb (a b : Layer) : bool :=
  match a, b with
  | Image, Image | Title, Title | Subtitle, Subtitle | QRCode, QRCode => true
  | _, _ => false
  end.

(** Size limits handed to a resizable wrapper. *)
Record Constraints : Set := mkConstraints {
  minWidth : Q; minHeight : Q; maxWidth : Q; maxHeight : Q
}.

(** One rendered layer: the offset its Draggable wrapper applies to it (the
    [position] prop, a translation from the place the layer has in the
    layout), the size of its box, and which gestures its wrappers accept. *)
Record Node : Set := mkNode {
  layer : Layer;
  position : Position;
  size : Size;
  draggable : bool;
  resizable : bool
}.

(** The element [posterRef] points to. *)
Record Surface : Set := mkSurface {
  styleWidth : Q;
  styleHeight : Q;
  children : list Node
}.

Definition findNode (l : Layer) (nodes : list Node) : option Node :=
  find (fun n => Layer_eqb (layer n) l) nodes.

(** Layout of the poster element ([className="relative ..."]).  The block
    around the image is its first child and is in normal flow, at the top
    left corner.  Title, subtitle and QR code are [className="absolute ..."]
    with no [top] and no [left], so each sits where it would be in normal
    flow: at the left edge, directly below the block around the image. *)
Definition flowHeight (nodes : list Node) : Q :=
  match findNode Image nodes with
  | Some n => height (size n)
  | None => 0
  end.

Definition origin (nodes : list Node) (l : Layer) : Position :=
  match l with
  | Image => {| x := 0; y := 0 |}
  | _ => {| x := 0; y := flowHeight nodes |}
  end.


(** Sizes the browser gives to the layers that have no explicit size. *)
Record Measured : Set := mkMeasured {
  titleSize : Size;
  subtitleSize : Size;
  qrCodeSize : Size
}.

(** A layer lies inside the canvas rectangle. *)
Definition inBounds (canvas : Size) (p : Position) (s : Size) : Prop :=
  0 <= x p /\ 0 <= y p /\
  x p + width s <= width canvas /\ y p + height s <= height canvas.

(** What a drag commit guarantees of the place [p] of a box of size [s]: a
    left and top edge inside the canvas, and a right and bottom edge inside
    the canvas in each direction in which the box is no larger than the
    canvas. *)
Definition committedWithin (canvas : Size) (p : Position) (s : Size) : Prop :=
  0 <= x p /\ 0 <= y p /\
  (width s <= width canvas -> x p + width s <= width canvas) /\
  (height s <= height canvas -> y p + height s <= height canvas).

(** Modelled from the spec: the rasteriser [toPng] (html-to-image, not part of
    src/).  It "serializes the rendered pixel content of the clipping region
    (exactly the canvas rectangle ...) to a raster format (PNG)" and "fails
    with RenderError if rasterization itself throws"; [renders] tells whether
    rasterising a surface goes through. *)
Definition toPng (renders : Surface -> bool) (node : Surface) : Promise RasterImage :=
  if renders node
  then Fulfilled {| mime := "image/png";
                    pixelWidth := styleWidth node;
                    pixelHeight := styleHeight node |}
  else Rejected "RenderError".

(** Modelled from the spec: the [bounds="parent"] behaviour of the Draggable
    wrapper (react-draggable, not part of src/).  It "clamps newPosition so
    the layer's bounding box stays within [0, canvasWidth] x [0,
    canvasHeight]".  The box is at its place [o] in the layout moved by the
    offset, so the limits of the offset are those of the box less [o]; the
    requested offset is first kept below the right and bottom limits, then
    above the left and top ones. *)
Definition boundToParent (parent : Size) (o : Position) (node : Size)
    (p : Position) : Position :=
  let left := - x o in
  let top := - y o in
  let right := width parent - width node - x o in
  let bottom := height parent - height node - y o in
  {| x := Qmax (Qmin (x p) right) left;
     y := Qmax (Qmin (y p) bottom) top |}.

Definition clamp (n lo hi : Q) : Q := Qmax (Qmin n hi) lo.

(** Modelled from the spec: the delta reported by the Resizable wrapper
    (re-resizable, not part of src/) at the end of a gesture.  The requested
    growth [drag] is applied to the size [current] the box has when the
    gesture starts, the result is "clamped to [minWidth, canvasWidth] x
    [minHeight, canvasHeight]", and the difference to the size at the start
    of the gesture is passed to [onResizeStop]. *)
Definition resizeDelta (c : Constraints) (current drag : Size) : Size :=
  {| width := clamp (width current + width drag) (minWidth c) (maxWidth c)
              - width current;
     height := clamp (height current + height drag) (minHeight c) (maxHeight c)
               - height current |}.

(** [downloadPoster], identical in the three revisions:
<<
    if (posterRef.current === null) { toast({...}); return; }
    toPng(posterRef.current, { cacheBust: true })
      .then((dataUrl) => { link.download = 'magazine-poster.png'; ... link.click(); })
      .catch((err) => { toast({...}); });
>>
    The result lists the notifications and downloads it causes, and the final
    state of the promise chain when one was started. *)
Definition downloadPoster (rasterise : Surface -> Promise RasterImage)
    (current : option Surface) : list Effect * option (Promise unit) :=
  match current with
  | None =>
      ([toast "Error" "Could not generate poster. Please try again." destructive],
       None)
  | Some node =>
      let (e1, p1) :=
        promise_then (rasterise node)
          (fun dataUrl => [download "magazine-poster.png" dataUrl]) in
      let (e2, p2) :=
        promise_catch p1
          (fun err => [toast "Error" "Could not download poster. Please try again."
                         destructive]) in
      ((e1 ++ e2)%list, Some p2)
  end.

Definition isToast (e : Effect) : bool :=
  match e with toast _ _ _ => true | download _ _ => false end.

Definition isDownload (e : Effect) : bool :=
  match e with toast _ _ _ => false | download _ _ => true end.

(** The notifications and the downloads among the effects of a handler. *)
Definition notifications (es : list Effect) : list Effect := filter isToast es.
Definition downloads (es : list Effect) : list Effect := filter isDownload es.

(** Gestures the pointer can make on a layer.  [DragMove] and [ResizeMove] are
    the intermediate frames, [DragStop] and [ResizeStop] end the gesture. *)
Inductive Gesture : Set :=
| DragMove (l : Layer) (p : Position)
| DragStop (l : Layer) (p : Position)
| ResizeMove (l : Layer) (drag : Size)
| ResizeStop (l : Layer) (drag : Size).

(** ** State shared by the two re-resizable revisions

    Both declare the same [useState] cells, the same drag and resize handlers
    and the same wrappers around the four layers. *)
Module Editor.

(** A decoded picture: its data URL and the intrinsic size [img.width],
    [img.height] the browser reports once it has loaded. *)
Record ImageData : Set := mkImageData {
  dataUrl : string;
  naturalWidth : Q;
  naturalHeight : Q
}.

(** The [useState] cells, and the two form fields observed through [watch]
    (kept as the numbers they denote).  The size cell holds numbers in the
    permissive revision, whose geometry effect converts the fields with
    [Number]; in the strict revision it holds the number a field text
    denotes once that field has been edited. *)
Record State : Set := mkState {
  imagePreview : option ImageData;
  generatedPoster : bool;
  titlePosition : Position;
  subtitlePosition : Position;
  qrCodePosition : Position;
  imagePosition : Position;
  imageSize : Size;
  watchWidth : Q;
  watchHeight : Q
}.

Definition setImagePreview (v : option ImageData) (st : State) : State :=
  mkState v (generatedPoster st) (titlePosition st) (subtitlePosition st)
    (qrCodePosition st) (imagePosition st) (imageSize st)
    (watchWidth st) (watchHeight st).

Definition setGeneratedPoster (v : bool) (st : State) : State :=
  mkState (imagePreview st) v (titlePosition st) (subtitlePosition st)
    (qrCodePosition st) (imagePosition st) (imageSize st)
    (watchWidth st) (watchHeight st).

Definition setTitlePosition (v : Position) (st : State) : State :=
  mkState (imagePreview st) (generatedPoster st) v (subtitlePosition st)
    (qrCodePosition st) (imagePosition st) (imageSize st)
    (watchWidth st) (watchHeight st).

Definition setSubtitlePosition (v : Position) (st : State) : State :=
  mkState (imagePreview st) (generatedPoster st) (titlePosition st) v
    (qrCodePosition st) (imagePosition st) (imageSize st)
    (watchWidth st) (watchHeight st).

Definition setQrCodePosition (v : Position) (st : State) : State :=
  mkState (imagePreview st) (generatedPoster st) (titlePosition st)
    (subtitlePosition st) v (imagePosition st) (imageSize st)
    (watchWidth st) (watchHeight st).

Definition setImagePosition (v : Position) (st : State) : State :=
  mkState (imagePreview st) (generatedPoster st) (titlePosition st)
    (subtitlePosition st) (qrCodePosition st) v (imageSize st)
    (watchWidth st) (watchHeight st).

Definition setImageSize (v : Size) (st : State) : State :=
  mkState (imagePreview st) (generatedPoster st) (titlePosition st)
    (subtitlePosition st) (qrCodePosition st) (imagePosition st) v
    (watchWidth st) (watchHeight st).

(** Editing the width or height field of the form. *)
Definition setWatchWidth (v : Q) (st : State) : State :=
  mkState (imagePreview st) (generatedPoster st) (titlePosition st)
    (subtitlePosition st) (qrCodePosition st) (imagePosition st) (imageSize st)
    v (watchHeight st).

Definition setWatchHeight (v : Q) (st : State) : State :=
  mkState (imagePreview st) (generatedPoster st) (titlePosition st)
    (subtitlePosition st) (qrCodePosition st) (imagePosition st) (imageSize st)
    (watchWidth st) v.

Definition layerPosition (l : Layer) (st : State) : Position :=
  match l with
  | Image => imagePosition st
  | Title => titlePosition st
  | Subtitle => subtitlePosition st
  | QRCode => qrCodePosition st
  end.

(** [minWidth={100} minHeight={100} maxWidth={watchWidth}
    maxHeight={watchHeight}]. *)
Definition resizableProps (st : State) : Constraints :=
  {| minWidth := 100; minHeight := 100;
     maxWidth := watchWidth st; maxHeight := watchHeight st |}.

(** Modelled from the spec: the box the Resizable wrapper (re-resizable, not
    part of src/) gives to the block around the image.  It has the width and
    height of the [size] prop, [imageSize], kept within the limits the
    wrapper is given, "[minWidth, canvasWidth] x [minHeight, canvasHeight]";
    where the limits conflict the minimum wins. *)
Definition imageBox (st : State) : Size :=
  let c := resizableProps st in
  {| width := clamp (width (imageSize st)) (minWidth c) (maxWidth c);
     height := clamp (height (imageSize st)) (minHeight c) (maxHeight c) |}.

(** The box of each layer. *)
Definition layerBox (m : Measured) (l : Layer) (st : State) : Size :=
  match l with
  | Image => imageBox st
  | Title => titleSize m
  | Subtitle => subtitleSize m
  | QRCode => qrCodeSize m
  end.

(** The poster element is [watchWidth] by [watchHeight] pixels. *)
Definition canvas (st : State) : Size :=
  {| width := watchWidth st; height := watchHeight st |}.

(** [onStop={(e, data) => set...Position({ x: data.x, y: data.y })}] of the
    Draggable around each layer. *)
Definition onStop (l : Layer) (data : Position) (st : State) : State :=
  match l with
  | Image => setImagePosition {| x := x data; y := y data |} st
  | Title => setTitlePosition {| x := x data; y := y data |} st
  | Subtitle => setSubtitlePosition {| x := x data; y := y data |} st
  | QRCode => setQrCodePosition {| x := x data; y := y data |} st
  end.

(** [onResizeStop] of the Resizable around the image:
<<
    setImageSize({ width: imageSize.width + d.width,
                   height: imageSize.height + d.height });
>>
    on a size cell that holds numbers. *)
Definition onResizeStop (d : Size) (st : State) : State :=
  setImageSize {| width := width (imageSize st) + width d;
                  height := height (imageSize st) + height d |} st.

Definition imageNode (st : State) : Node :=
  {| layer := Image; position := imagePosition st; size := imageBox st;
     draggable := true; resizable := true |}.

Definition titleNode (m : Measured) (st : State) : Node :=
  {| layer := Title; position := titlePosition st; size := titleSize m;
     draggable := true; resizable := false |}.

Definition subtitleNode (m : Measured) (st : State) : Node :=
  {| layer := Subtitle; position := subtitlePosition st; size := subtitleSize m;
     draggable := true; resizable := false |}.

Definition qrCodeNode (m : Measured) (st : State) : Node :=
  {| layer := QRCode; position := qrCodePosition st; size := qrCodeSize m;
     draggable := true; resizable := false |}.

(** A gesture reaches the handler of the wrapper around the layer it is made
    on, when that layer is rendered.  No handler is registered for the
    intermediate frames ([onDrag], [onResize]).  The Draggable measures the
    box of its layer and the place the layer has in the layout; the
    Resizable measures the box of the block around the image. *)
Definition gesture (nodes : list Node) (g : Gesture) (st : State) : State :=
  match g with
  | DragMove _ _ => st
  | ResizeMove _ _ => st
  | DragStop l p =>
      match findNode l nodes with
      | Some n =>
          if draggable n
          then onStop l (boundToParent (canvas st) (origin nodes l) (size n) p) st
          else st
      | None => st
      end
  | ResizeStop l drag =>
      match findNode l nodes with
      | Some n =>
          if resizable n
          then onResizeStop (resizeDelta (resizableProps st) (size n) drag) st
          else st
      | None => st
      end
  end.

(** Dependency comparison of [useEffect] on the image cell. *)
Definition sameImage (a b : option ImageData) : bool :=
  match a, b with
  | None, None => true
  | Some i, Some j => String.eqb (dataUrl i) (dataUrl j)
  | _, _ => false
  end.

End Editor.

(** ** The strict revision *)
Module Strict.
Import Editor.

(** [z.number().min(1, "... must be a positive number")]. *)
Definition widthSchema (v : FieldValue) : SafeParse Q :=
  z_number_min 1 "Width must be a positive number" (z_number v).

Definition heightSchema (v : FieldValue) : SafeParse Q :=
  z_number_min 1 "Height must be a positive number" (z_number v).

(** Initial values of the cells and the form defaults 1080 x 1920. *)
Definition initialState : State :=
  {| imagePreview := None;
     generatedPoster := false;
     titlePosition := {| x := 20; y := 20 |};
     subtitlePosition := {| x := 20; y := 80 |};
     qrCodePosition := {| x := 20; y := 140 |};
     imagePosition := {| x := 0; y := 0 |};
     imageSize := {| width := 0; height := 0 |};
     watchWidth := 1080;
     watchHeight := 1920 |}.

(** The body of [img.onload] in [onSubmit], which sets the cells; it runs
    once the submitted file has been read and decoded, and [file] is the
    picture it was decoded to. *)
Definition onSubmit (file : ImageData) (st : State) : State :=
  let g := imageGeometry (naturalWidth file) (naturalHeight file)
             (watchWidth st) (watchHeight st) in
  setGeneratedPoster true (setImagePreview (Some file) (setImageSize g st)).

(** First effect, dependencies [generatedPoster, watchHeight].  [seen] is the
    render whose values the effect closes over. *)
Definition positionEffect (seen st : State) : State :=
  if generatedPoster seen
  then setImagePosition {| x := 0; y := 0 |}
         (setQrCodePosition {| x := 20; y := watchHeight seen - 120 |}
            (setSubtitlePosition {| x := 20; y := 80 |}
               (setTitlePosition {| x := 20; y := 20 |} st)))
  else st.

Definition positionDepsChanged (prev cur : State) : bool :=
  negb (Bool.eqb (generatedPoster prev) (generatedPoster cur))
  || negb (Qeq_bool (watchHeight prev) (watchHeight cur)).

(** Second effect, dependencies [watchWidth, watchHeight, imagePreview]. *)
Definition geometryEffect (seen st : State) : State :=
  match imagePreview seen with
  | Some img =>
      setImageSize
        (imageGeometry (naturalWidth img) (naturalHeight img)
           (watchWidth seen) (watchHeight seen)) st
  | None => st
  end.

Definition geometryDepsChanged (prev cur : State) : bool :=
  negb (Qeq_bool (watchWidth prev) (watchWidth cur))
  || negb (Qeq_bool (watchHeight prev) (watchHeight cur))
  || negb (sameImage (imagePreview prev) (imagePreview cur)).

(** After a render, the effects whose dependencies differ from the previous
    render run, in the order they are declared.  Neither writes a dependency
    of the other, so one round settles. *)
Definition runEffects (prev cur : State) : State :=
  let s1 := if positionDepsChanged prev cur then positionEffect cur cur else cur in
  if geometryDepsChanged prev cur then geometryEffect cur s1 else s1.

(** The layers inside the poster element, in paint order; nothing is rendered
    until a poster has been generated. *)
Definition render (m : Measured) (st : State) : list Node :=
  if generatedPoster st
  then [imageNode st; titleNode m st; subtitleNode m st; qrCodeNode m st]
  else [].

(** [posterRef.current]: the poster element when it is mounted. *)
Definition posterRef (m : Measured) (st : State) : option Surface :=
  if generatedPoster st
  then Some {| styleWidth := watchWidth st;
               styleHeight := watchHeight st;
               children := render m st |}
  else None.

Inductive Event : Set :=
| Submit (file : ImageData)
| ChangeWidth (w : Q)
| ChangeHeight (h : Q)
| Pointer (g : Gesture).

Definition handle (m : Measured) (ev : Event) (st : State) : State :=
  match ev with
  | Submit file => onSubmit file st
  | ChangeWidth w => setWatchWidth w st
  | ChangeHeight h => setWatchHeight h st
  | Pointer g => gesture (render m st) g st
  end.

Definition step (m : Measured) (ev : Event) (st : State) : State :=
  runEffects st (handle m ev st).

Definition run (m : Measured) (evs : list Event) (st : State) : State :=
  fold_left (fun s ev => step m ev s) evs st.

(** Clicking the download button: the handler sets no cell. *)
Definition clickDownload (m : Measured) (rasterise : Surface -> Promise RasterImage)
    (st : State) : State * (list Effect * option (Promise unit)) :=
  (st, downloadPoster rasterise (posterRef m st)).

End Strict.

(** ** The permissive revision *)
Module Permissive.
Import Editor.

(** [z.string().min(1, "...").transform((val) => Number(val))]. *)
Definition widthSchema (v : FieldValue) : SafeParse JsNumber :=
  z_transform Number (z_string_min 1 "Width must be a positive number" (z_string v)).

Definition heightSchema (v : FieldValue) : SafeParse JsNumber :=
  z_transform Number (z_string_min 1 "Height must be a positive number" (z_string v)).

(** Initial values of the cells and the form defaults 344 x 444. *)
Definition initialState : State :=
  {| imagePreview := None;
     generatedPoster := false;
     titlePosition := {| x := 20; y := 20 |};
     subtitlePosition := {| x := 20; y := 80 |};
     qrCodePosition := {| x := 20; y := 140 |};
     imagePosition := {| x := 0; y := 0 |};
     imageSize := {| width := 0; height := 0 |};
     watchWidth := 344;
     watchHeight := 444 |}.

(** [onSubmit]: the image is optional. *)
Definition onSubmit (file : option ImageData) (st : State) : State :=
  match file with
  | Some f => setGeneratedPoster true (setImagePreview (Some f) st)
  | None => setGeneratedPoster true st
  end.

(** The only effect, dependencies
    [generatedPoster, imagePreview, watchWidth, watchHeight]. *)
Definition geometryEffect (seen st : State) : State :=
  if generatedPoster seen
  then match imagePreview seen with
       | Some img =>
           setImageSize
             (imageGeometry (naturalWidth img) (naturalHeight img)
                (watchWidth seen) (watchHeight seen)) st
       | None => st
       end
  else st.

Definition geometryDepsChanged (prev cur : State) : bool :=
  negb (Bool.eqb (generatedPoster prev) (generatedPoster cur))
  || negb (sameImage (imagePreview prev) (imagePreview cur))
  || negb (Qeq_bool (watchWidth prev) (watchWidth cur))
  || negb (Qeq_bool (watchHeight prev) (watchHeight cur)).

Definition runEffects (prev cur : State) : State :=
  if geometryDepsChanged prev cur then geometryEffect cur cur else cur.

(** The image layer is rendered only when a picture was supplied. *)
Definition render (m : Measured) (st : State) : list Node :=
  if generatedPoster st
  then (match imagePreview st with
        | Some _ => [imageNode st]
        | None => []
        end ++ [titleNode m st; subtitleNode m st; qrCodeNode m st])%list
  else [].

Definition posterRef (m : Measured) (st : State) : option Surface :=
  if generatedPoster st
  then Some {| styleWidth := watchWidth st;
               styleHeight := watchHeight st;
               children := render m st |}
  else None.

Inductive Event : Set :=
| Submit (file : option ImageData)
| ChangeWidth (w : Q)
| ChangeHeight (h : Q)
| Pointer (g : Gesture).

Definition handle (m : Measured) (ev : Event) (st : State) : State :=
  match ev with
  | Submit file => onSubmit file st
  | ChangeWidth w => setWatchWidth w st
  | ChangeHeight h => setWatchHeight h st
  | Pointer g => gesture (render m st) g st
  end.

Definition step (m : Measured) (ev : Event) (st : State) : State :=
  runEffects st (handle m ev st).

Definition run (m : Measured) (evs : list Event) (st : State) : State :=
  fold_left (fun s ev => step m ev s) evs st.

Definition clickDownload (m : Measured) (rasterise : Surface -> Promise RasterImage)
    (st : State) : State * (list Effect * option (Promise unit)) :=
  (st, downloadPoster rasterise (posterRef m st)).

End Permissive.

(** ** The react-resizable revision (src/components/PosterGenerator.tsx) *)
Module Legacy.

(** The [useState] cells of this revision, and the width and height fields
    observed through [watch] (kept as the numbers they denote). *)
Record State : Set := mkState {
  imagePreview : option string;
  generatedPoster : bool;
  titlePosition : Position;
  qrCodePosition : Position;
  imageSize : Size;
  watchWidth : Q;
  watchHeight : Q
}.

Definition setImagePreview (v : option string) (st : State) : State :=
  mkState v (generatedPoster st) (titlePosition st) (qrCodePosition st)
    (imageSize st) (watchWidth st) (watchHeight st).

Definition setGeneratedPoster (v : bool) (st : State) : State :=
  mkState (imagePreview st) v (titlePosition st) (qrCodePosition st)
    (imageSize st) (watchWidth st) (watchHeight st).

Definition setTitlePosition (v : Position) (st : State) : State :=
  mkState (imagePreview st) (generatedPoster st) v (qrCodePosition st)
    (imageSize st) (watchWidth st) (watchHeight st).

Definition setQrCodePosition (v : Position) (st : State) : State :=
  mkState (imagePreview st) (generatedPoster st) (titlePosition st) v
    (imageSize st) (watchWidth st) (watchHeight st).

Definition setImageSize (v : Size) (st : State) : State :=
  mkState (imagePreview st) (generatedPoster st) (titlePosition st)
    (qrCodePosition st) v (watchWidth st) (watchHeight st).

Definition setWatchWidth (v : Q) (st : State) : State :=
  mkState (imagePreview st) (generatedPoster st) (titlePosition st)
    (qrCodePosition st) (imageSize st) v (watchHeight st).

Definition setWatchHeight (v : Q) (st : State) : State :=
  mkState (imagePreview st) (generatedPoster st) (titlePosition st)
    (qrCodePosition st) (imageSize st) (watchWidth st) v.

(** [z.string().regex(/^\d+$/, "... must be a number").transform(Number)]. *)
Definition widthSchema (v : FieldValue) : SafeParse JsNumber :=
  z_transform Number (z_regex matchesDigits "Width must be a number" (z_string v)).

Definition heightSchema (v : FieldValue) : SafeParse JsNumber :=
  z_transform Number (z_regex matchesDigits "Height must be a number" (z_string v)).

(** Initial values of the cells and the form defaults 800 x 1000. *)
Definition initialState : State :=
  {| imagePreview := None;
     generatedPoster := false;
     titlePosition := {| x := 0; y := 0 |};
     qrCodePosition := {| x := 0; y := 0 |};
     imageSize := {| width := 800; height := 600 |};
     watchWidth := 800;
     watchHeight := 1000 |}.

Definition canvas (st : State) : Size :=
  {| width := watchWidth st; height := watchHeight st |}.

(** [onSubmit]:
<<
    reader.onloadend = () => {
      setImagePreview(reader.result as string);
      setGeneratedPoster(true);
    };
>>
    [onloadend] fires when the read has ended, whether it succeeded or not;
    [result] is the data URL read, or [null] after a failed read. *)
Definition onSubmit (result : option string) (st : State) : State :=
  setGeneratedPoster true (setImagePreview result st).

(** [onResize={(e, {size}) => setImageSize(size)}]: called on every frame of a
    resize gesture with the size the wrapper reports.  No limits are passed
    to the wrapper. *)
Definition onResize (size : Size) (st : State) : State :=
  setImageSize size st.

Definition onStopTitle (data : Position) (st : State) : State :=
  setTitlePosition {| x := x data; y := y data |} st.

Definition onStopQrCode (data : Position) (st : State) : State :=
  setQrCodePosition {| x := x data; y := y data |} st.

(** The block around the image sits in normal flow at the top left corner,
    has the width and height of [imageSize] and is not draggable; there is
    no subtitle. *)
Definition render (m : Measured) (st : State) : list Node :=
  if generatedPoster st
  then [ {| layer := Image; position := {| x := 0; y := 0 |};
            size := imageSize st; draggable := false; resizable := true |};
         {| layer := Title; position := titlePosition st;
            size := titleSize m; draggable := true; resizable := false |};
         {| layer := QRCode; position := qrCodePosition st;
            size := qrCodeSize m; draggable := true; resizable := false |} ]
  else [].

Definition posterRef (m : Measured) (st : State) : option Surface :=
  if generatedPoster st
  then Some {| styleWidth := watchWidth st;
               styleHeight := watchHeight st;
               children := render m st |}
  else None.

Inductive Event : Set :=
| Submit (result : option string)
| ChangeWidth (w : Q)
| ChangeHeight (h : Q)
| DragFrame (l : Layer) (p : Position)
| DragEnd (l : Layer) (p : Position)
| ResizeFrame (l : Layer) (reported : Size)
| ResizeEnd (l : Layer) (reported : Size).

(** There are no effects in this revision: a step is the handler alone. *)
Definition step (m : Measured) (ev : Event) (st : State) : State :=
  match ev with
  | Submit result => onSubmit result st
  | ChangeWidth w => setWatchWidth w st
  | ChangeHeight h => setWatchHeight h st
  | DragFrame _ _ => st
  | DragEnd l p =>
      match findNode l (render m st) with
      | Some n =>
          if draggable n
          then let data := boundToParent (canvas st) (origin (render m st) l)
                             (size n) p in
               match l with
               | Title => onStopTitle data st
               | QRCode => onStopQrCode data st
               | _ => st
               end
          else st
      | None => st
      end
  | ResizeFrame l reported =>
      match findNode l (render m st) with
      | Some n => if resizable n then onResize reported st else st
      | None => st
      end
  | ResizeEnd _ _ => st
  end.

Definition clickDownload (m : Measured) (rasterise : Surface -> Promise RasterImage)
    (st : State) : State * (list Effect * option (Promise unit)) :=
  (st, downloadPoster rasterise (posterRef m st)).

End Legacy.

(** ** The other members of [formSchema] and the submission of the form *)

Definition MAX_FILE_SIZE : N := 5000000.

Definition ACCEPTED_IMAGE_TYPES : list string :=
  ["image/jpeg"; "image/jpg"; "image/png"; "image/webp"].

Module Upload.

(** A file picked in the image input: its size in bytes, its MIME type and
    the picture its content stands for, which is what the page gets when the
    file can be read and decoded. *)
Record File : Set := mkFile {
  size : N;
  type : string;
  content : Editor.ImageData
}.

End Upload.

(** The value of the image field: [None] for [null], otherwise the list of
    picked files. *)
Definition FileList : Set := option (list Upload.File).

(** [files?.length == 1]. *)
Definition exactlyOneFile (files : FileList) : bool :=
  match files with
  | Some picked => Nat.eqb (List.length picked) 1
  | None => false
  end.

(** [files?.[0]?.size <= MAX_FILE_SIZE]; the comparison is false when there
    is no first file. *)
Definition firstFileWithinLimit (files : FileList) : bool :=
  match files with
  | Some (f :: _) => (Upload.size f <=? MAX_FILE_SIZE)%N
  | _ => false
  end.

(** [ACCEPTED_IMAGE_TYPES.includes(files?.[0]?.type)]. *)
Definition firstFileAccepted (files : FileList) : bool :=
  match files with
  | Some (f :: _) => existsb (String.eqb (Upload.type f)) ACCEPTED_IMAGE_TYPES
  | _ => false
  end.

(** [.refine(check, message)]: the check runs whether or not an earlier
    refinement failed, and a failed check adds its message to the issues. *)
Definition z_refine {A : Type} (check : A -> bool) (message : string)
    (r : A * list string) : A * list string :=
  let (v, issues) := r in
  (v, (issues ++ (if check v then [] else [message]))%list).

(** The [image] member of [formSchema] in the react-resizable and the strict
    revision: [z.any()] followed by three refinements.  The result lists the
    messages of the failed refinements, in the order they are declared. *)
Definition imageSchema (files : FileList) : list string :=
  snd (z_refine firstFileAccepted ".jpg, .jpeg, .png and .webp files are accepted."
         (z_refine firstFileWithinLimit "Max file size is 5MB."
            (z_refine exactlyOneFile "Image is required." (files, [])))).

(** [title: z.string().min(1, { message: "Title is required" })]. *)
Definition titleSchema (v : FieldValue) : SafeParse string :=
  z_string_min 1 "Title is required" (z_string v).

(** [subtitle: z.string().optional()]. *)
Definition subtitleSchema (v : FieldValue) : SafeParse (option string) :=
  match v with
  | VUndefined => success None
  | _ => z_transform Some (z_string v)
  end.

(** [url: z.string().url({ message: "Invalid URL" })].  Whether a text is a
    URL is decided by the URL parser of the platform, [isUrl]. *)
Definition urlSchema (isUrl : string -> bool) (v : FieldValue) : SafeParse string :=
  z_regex isUrl "Invalid URL" (z_string v).

Definition issueOf {A : Type} (r : SafeParse A) : option ZodIssue :=
  match r with success _ => None | failure i => Some i end.

Module Form.

(** The values of the form fields handed to the resolver. *)
Record Values : Set := mkValues {
  title : FieldValue;
  subtitle : FieldValue;
  url : FieldValue;
  image : FileList;
  width : FieldValue;
  height : FieldValue
}.

(** [formState.errors]: for each field the first issue of its schema. *)
Record Errors : Set := mkErrors {
  titleError : option ZodIssue;
  subtitleError : option ZodIssue;
  urlError : option ZodIssue;
  imageError : option string;
  widthError : option ZodIssue;
  heightError : option ZodIssue
}.

Definition isNone {A : Type} (o : option A) : bool :=
  match o with None => true | Some _ => false end.

(** No field has an error. *)
Definition clean (e : Errors) : bool :=
  isNone (titleError e) && isNone (subtitleError e) && isNone (urlError e)
  && isNone (imageError e) && isNone (widthError e) && isNone (heightError e).

End Form.

(** [handleSubmit(onSubmit)] of each revision: the resolver runs [formSchema]
    on the field values and [onSubmit] is called only when no field has an
    error.  [onSubmit] reads the first file of the image field. *)
Module StrictForm.

Definition formSchema (isUrl : string -> bool) (v : Form.Values) : Form.Errors :=
  {| Form.titleError := issueOf (titleSchema (Form.title v));
     Form.subtitleError := issueOf (subtitleSchema (Form.subtitle v));
     Form.urlError := issueOf (urlSchema isUrl (Form.url v));
     Form.imageError := hd_error (imageSchema (Form.image v));
     Form.widthError := issueOf (Strict.widthSchema (Form.width v));
     Form.heightError := issueOf (Strict.heightSchema (Form.height v)) |}.

(** [onSubmit] sets the cells inside [img.onload], which is nested in
    [reader.onloadend]; there is no [onerror].  [decodes] tells whether the
    browser reads the file and decodes what it read as a picture: only then
    does [img.onload] fire. *)
Definition handleSubmit (isUrl : string -> bool) (decodes : Upload.File -> bool)
    (m : Measured) (v : Form.Values) (st : Editor.State) : Editor.State :=
  if Form.clean (formSchema isUrl v)
  then match Form.image v with
       | Some (file :: _) =>
           if decodes file
           then Strict.step m (Strict.Submit (Upload.content file)) st
           else st
       | _ => st
       end
  else st.

End StrictForm.

Module PermissiveForm.

(** [image: z.any()]: every value passes. *)
Definition formSchema (isUrl : string -> bool) (v : Form.Values) : Form.Errors :=
  {| Form.titleError := issueOf (titleSchema (Form.title v));
     Form.subtitleError := issueOf (subtitleSchema (Form.subtitle v));
     Form.urlError := issueOf (urlSchema isUrl (Form.url v));
     Form.imageError := None;
     Form.widthError := issueOf (Permissive.widthSchema (Form.width v));
     Form.heightError := issueOf (Permissive.heightSchema (Form.height v)) |}.

(** [data.image[0]] is [undefined] for an empty list of files and throws for
    [null], in which case no cell is set. *)
Definition handleSubmit (isUrl : string -> bool) (m : Measured) (v : Form.Values)
    (st : Editor.State) : Editor.State :=
  if Form.clean (formSchema isUrl v)
  then match Form.image v with
       | Some (file :: _) =>
           Permissive.step m (Permissive.Submit (Some (Upload.content file))) st
       | Some [] => Permissive.step m (Permissive.Submit None) st
       | None => st
       end
  else st.

End PermissiveForm.

Module LegacyForm.

(** This revision has no subtitle field. *)
Definition formSchema (isUrl : string -> bool) (v : Form.Values) : Form.Errors :=
  {| Form.titleError := issueOf (titleSchema (Form.title v));
     Form.subtitleError := None;
     Form.urlError := issueOf (urlSchema isUrl (Form.url v));
     Form.imageError := hd_error (imageSchema (Form.image v));
     Form.widthError := issueOf (Legacy.widthSchema (Form.width v));
     Form.heightError := issueOf (Legacy.heightSchema (Form.height v)) |}.

(** [reads] tells whether the browser can read the file; [reader.result] is
    the data URL of its content when it can and [null] when it cannot. *)
Definition readAsDataURL (reads : Upload.File -> bool) (file : Upload.File)
  : option string :=
  if reads file then Some (Editor.dataUrl (Upload.content file)) else None.

Definition handleSubmit (isUrl : string -> bool) (reads : Upload.File -> bool)
    (m : Measured) (v : Form.Values) (st : Legacy.State) : Legacy.State :=
  if Form.clean (formSchema isUrl v)
  then match Form.image v with
       | Some (file :: _) =>
           Legacy.step m (Legacy.Submit (readAsDataURL reads file)) st
       | _ => st
       end
  else st.

Definition run (m : Measured) (evs : list Legacy.Event) (st : Legacy.State)
  : Legacy.State :=
  fold_left (fun s ev => Legacy.step m ev s) evs st.

End LegacyForm.


(** Events of the strict revision that edit the width or the height field. *)
Definition isFieldEdit (ev : Strict.Event) : bool :=
  match ev with
  | Strict.ChangeWidth _ | Strict.ChangeHeight _ => true
  | _ => false
  end.


(** Events of the react-resizable revision that are a frame of a resize
    gesture. *)
Definition isResizeFrame (ev : Legacy.Event) : bool :=
  match ev with
  | Legacy.ResizeFrame _ _ => true
  | _ => false
  end.

(** The positions the first effect of the strict revision writes. *)
Definition resetPosition (watchHeight : Q) (l : Layer) : Position :=
  match l with
  | Image => {| x := 0; y := 0 |}
  | Title => {| x := 20; y := 20 |}
  | Subtitle => {| x := 20; y := 80 |}
  | QRCode => {| x := 20; y := watchHeight - 120 |}
  end.


(** Events of the permissive revision that end a drag gesture. *)
Definition isDragStop (ev : Permissive.Event) : bool :=
  match ev with
  | Permissive.Pointer (DragStop _ _) => true
  | _ => false
  end.

(** ** Theorems *)

Lemma Qgtb_true (a b : Q) : Qgtb a b = true <-> b < a.
Proof.
  unfold Qgtb. rewrite negb_true_iff. split; intro H.
  - apply Qnot_le_lt. intro Hle. apply Qle_bool_iff in Hle. congruence.
  - destruct (Qle_bool a b) eqn:E; [|reflexivity].
    apply Qle_bool_iff in E. exfalso. apply (Qlt_not_le _ _ H E).
Qed.

Lemma Qgtb_false (a b : Q) : Qgtb a b = false <-> a <= b.
Proof.
  unfold Qgtb. rewrite negb_false_iff. apply Qle_bool_iff.
Qed.

Lemma aspect_pos (iw ih : Q) : 0 < iw -> 0 < ih -> 0 < iw / ih.
Proof.
  intros Hw Hh. unfold Qdiv. apply Qmult_lt_0_compat; [assumption|].
  apply Qinv_lt_0_compat. assumption.
Qed.

Lemma imageGeometry_fits (iw ih cw ch : Q) :
  0 < iw -> 0 < ih -> 0 < cw -> 0 < ch ->
  let g := imageGeometry iw ih cw ch in
  width g <= cw /\ height g <= ch /\ 0 < width g /\ 0 < height g /\
  width g / height g == iw / ih.
Proof.
  intros Hiw Hih Hcw Hch. unfold imageGeometry.
  pose proof (aspect_pos iw ih Hiw Hih) as Har.
  set (ar := iw / ih) in *.
  assert (Hne : ~ ar == 0) by (intro E; rewrite E in Har; discriminate).
  assert (Hcne : ~ cw == 0) by (intro E; rewrite E in Hcw; discriminate).
  assert (Hhne : ~ ch == 0) by (intro E; rewrite E in Hch; discriminate).
  destruct (Qgtb (cw / ar) ch) eqn:E; cbn [width height].
  - apply Qgtb_true in E.
    assert (Hw : ch * ar < cw).
    { apply (Qmult_lt_compat_r _ _ ar Har) in E.
      assert (Hs : cw / ar * ar == cw) by (field; assumption).
      rewrite Hs in E. exact E. }
    repeat split.
    + apply Qlt_le_weak, Hw.
    + apply Qle_refl.
    + apply Qmult_lt_0_compat; assumption.
    + assumption.
    + field. assumption.
  - apply Qgtb_false in E.
    repeat split.
    + apply Qle_refl.
    + exact E.
    + assumption.
    + apply aspect_pos; assumption.
    + field. split; assumption.
Qed.

(** *** Bounding and clamping *)

Lemma bound_spec (n hi lo : Q) :
  lo <= Qmax (Qmin n hi) lo /\ (lo <= hi -> Qmax (Qmin n hi) lo <= hi) /\
  (lo <= n -> n <= hi -> Qmax (Qmin n hi) lo == n).
Proof.
  split; [apply Q.le_max_r|]. split.
  - intro H. apply Q.max_lub; [apply Q.le_min_r | exact H].
  - intros Hlo Hhi. rewrite (Q.min_l _ _ Hhi). apply Q.max_l, Hlo.
Qed.



Lemma clamp_spec (n lo hi : Q) :
  lo <= clamp n lo hi /\ (lo <= hi -> clamp n lo hi <= hi).
Proof.
  unfold clamp. destruct (bound_spec n hi lo) as (H1 & H2 & _). split; assumption.
Qed.

Lemma clamp_inside (n lo hi : Q) : lo <= n -> n <= hi -> clamp n lo hi == n.
Proof. intros H1 H2. unfold clamp. apply bound_spec; assumption. Qed.

(** *** Effects run only when a dependency changed *)

Lemma sameImage_refl (i : option Editor.ImageData) : Editor.sameImage i i = true.
Proof.
  destruct i as [i|]; cbn; [apply String.eqb_refl | reflexivity].
Qed.

Lemma gesture_frame (nodes : list Node) (g : Gesture) (st : Editor.State) :
  let st' := Editor.gesture nodes g st in
  Editor.imagePreview st' = Editor.imagePreview st /\
  Editor.generatedPoster st' = Editor.generatedPoster st /\
  Editor.watchWidth st' = Editor.watchWidth st /\
  Editor.watchHeight st' = Editor.watchHeight st.
Proof.
  destruct g as [l p|l p|l d|l d]; cbn; auto.
  - destruct (findNode l nodes) as [n|]; auto.
    destruct (draggable n); auto. destruct l; cbn; auto.
  - destruct (findNode l nodes) as [n|]; auto.
    destruct (resizable n); cbn; auto.
Qed.

Lemma strict_runEffects_idle (prev cur : Editor.State) :
  Editor.generatedPoster cur = Editor.generatedPoster prev ->
  Editor.watchWidth cur == Editor.watchWidth prev ->
  Editor.watchHeight cur == Editor.watchHeight prev ->
  Editor.sameImage (Editor.imagePreview prev) (Editor.imagePreview cur) = true ->
  Strict.runEffects prev cur = cur.
Proof.
  intros Hg Hw Hh Hi. unfold Strict.runEffects.
  assert (E1 : Strict.positionDepsChanged prev cur = false).
  { unfold Strict.positionDepsChanged. rewrite Hg, Bool.eqb_reflx.
    symmetry in Hh. apply Qeq_bool_iff in Hh. rewrite Hh. reflexivity. }
  assert (E2 : Strict.geometryDepsChanged prev cur = false).
  { unfold Strict.geometryDepsChanged. rewrite Hi.
    symmetry in Hh. apply Qeq_bool_iff in Hh. rewrite Hh.
    symmetry in Hw. apply Qeq_bool_iff in Hw. rewrite Hw. reflexivity. }
  rewrite E1, E2. reflexivity.
Qed.

Lemma permissive_runEffects_idle (prev cur : Editor.State) :
  Editor.generatedPoster cur = Editor.generatedPoster prev ->
  Editor.watchWidth cur == Editor.watchWidth prev ->
  Editor.watchHeight cur == Editor.watchHeight prev ->
  Editor.sameImage (Editor.imagePreview prev) (Editor.imagePreview cur) = true ->
  Permissive.runEffects prev cur = cur.
Proof.
  intros Hg Hw Hh Hi. unfold Permissive.runEffects.
  assert (E : Permissive.geometryDepsChanged prev cur = false).
  { unfold Permissive.geometryDepsChanged. rewrite Hg, Bool.eqb_reflx, Hi.
    symmetry in Hh. apply Qeq_bool_iff in Hh. rewrite Hh.
    symmetry in Hw. apply Qeq_bool_iff in Hw. rewrite Hw. reflexivity. }
  rewrite E. reflexivity.
Qed.

Lemma strict_step_pointer (m : Measured) (g : Gesture) (st : Editor.State) :
  Strict.step m (Strict.Pointer g) st = Editor.gesture (Strict.render m st) g st.
Proof.
  unfold Strict.step, Strict.handle.
  destruct (gesture_frame (Strict.render m st) g st) as (Hi & Hg & Hw & Hh).
  apply strict_runEffects_idle.
  - exact Hg.
  - rewrite Hw. reflexivity.
  - rewrite Hh. reflexivity.
  - rewrite Hi. apply sameImage_refl.
Qed.

Lemma permissive_step_pointer (m : Measured) (g : Gesture) (st : Editor.State) :
  Permissive.step m (Permissive.Pointer g) st
  = Editor.gesture (Permissive.render m st) g st.
Proof.
  unfold Permissive.step, Permissive.handle.
  destruct (gesture_frame (Permissive.render m st) g st) as (Hi & Hg & Hw & Hh).
  apply permissive_runEffects_idle.
  - exact Hg.
  - rewrite Hw. reflexivity.
  - rewrite Hh. reflexivity.
  - rewrite Hi. apply sameImage_refl.
Qed.

(** The height of the block in normal flow, in each revision. *)
Lemma strict_flowHeight (m : Measured) (st : Editor.State) :
  flowHeight (Strict.render m st)
  = if Editor.generatedPoster st then height (Editor.imageBox st) else 0.
Proof. unfold Strict.render. destruct (Editor.generatedPoster st); reflexivity. Qed.

Lemma permissive_flowHeight (m : Measured) (st : Editor.State) :
  flowHeight (Permissive.render m st)
  = if Editor.generatedPoster st
    then match Editor.imagePreview st with
         | Some _ => height (Editor.imageBox st)
         | None => 0
         end
    else 0.
Proof.
  unfold Permissive.render.
  destruct (Editor.generatedPoster st); [|reflexivity].
  destruct (Editor.imagePreview st); reflexivity.
Qed.


Lemma origin_flowHeight (nodes nodes' : list Node) (l : Layer) :
  flowHeight nodes = flowHeight nodes' -> origin nodes l = origin nodes' l.
Proof. intro H. destruct l; cbn; rewrite ?H; reflexivity. Qed.

(** What a drag-stop on a rendered layer of the strict revision commits. *)
Lemma strict_dragStop (m : Measured) (l : Layer) (p : Position) (st : Editor.State) :
  Editor.generatedPoster st = true ->
  Strict.step m (Strict.Pointer (DragStop l p)) st
  = Editor.onStop l
      (boundToParent (Editor.canvas st) (origin (Strict.render m st) l)
         (Editor.layerBox m l st) p) st.
Proof.
  intro Hg. rewrite strict_step_pointer.
  unfold Strict.render. rewrite Hg. destruct l; reflexivity.
Qed.

Lemma strict_dragStop_unmounted (m : Measured) (l : Layer) (p : Position)
    (st : Editor.State) :
  Editor.generatedPoster st = false ->
  Strict.step m (Strict.Pointer (DragStop l p)) st = st.
Proof.
  intro Hg. rewrite strict_step_pointer.
  unfold Strict.render. rewrite Hg. reflexivity.
Qed.


Lemma onStop_frame (l : Layer) (data : Position) (st : Editor.State) :
  let st' := Editor.onStop l data st in
  Editor.imageSize st' = Editor.imageSize st /\
  Editor.canvas st' = Editor.canvas st /\
  Editor.generatedPoster st' = Editor.generatedPoster st /\
  Editor.imagePreview st' = Editor.imagePreview st /\
  forall l', l' <> l -> Editor.layerPosition l' st' = Editor.layerPosition l' st.
Proof.
  destruct l; cbn; repeat split; intros l' Hl; destruct l'; try reflexivity;
    exfalso; apply Hl; reflexivity.
Qed.

Lemma onStop_layerBox (m : Measured) (l k : Layer) (data : Position)
    (st : Editor.State) :
  Editor.layerBox m k (Editor.onStop l data st) = Editor.layerBox m k st.
Proof. destruct l, k; reflexivity. Qed.

(** A drag commit moves no layer in the layout. *)
Lemma onStop_origin (m : Measured) (l k : Layer) (data : Position)
    (st : Editor.State) :
  origin (Strict.render m (Editor.onStop l data st)) k
  = origin (Strict.render m st) k /\
  origin (Permissive.render m (Editor.onStop l data st)) k
  = origin (Permissive.render m st) k.
Proof.
  split; apply origin_flowHeight;
    rewrite ?strict_flowHeight, ?permissive_flowHeight; destruct l; reflexivity.
Qed.

(** *** Image geometry *)

(** C1.  For positive intrinsic and canvas dimensions the geometry
    computation takes the full canvas width and the height that keeps the
    aspect ratio, and when that height exceeds the canvas height it takes the
    canvas height and the matching width instead.  The result fits the canvas
    and has the intrinsic aspect ratio.  It is the value the geometry effects
    and the strict [onSubmit] store in [imageSize].  A 2000x1000 picture gives
    800x400 on an 800x1000 canvas and 200x100 on a 400x100 canvas. *)
Theorem imageGeometry_contain_fit (iw ih cw ch : Q) :
  0 < iw -> 0 < ih -> 0 < cw -> 0 < ch ->
  let g := imageGeometry iw ih cw ch in
  (cw / (iw / ih) <= ch -> g = {| width := cw; height := cw / (iw / ih) |}) /\
  (ch < cw / (iw / ih) -> g = {| width := ch * (iw / ih); height := ch |}) /\
  width g <= cw /\ height g <= ch /\ width g / height g == iw / ih /\
  (forall (st : Editor.State) (url : string),
     let img := Editor.mkImageData url iw ih in
     Editor.watchWidth st = cw -> Editor.watchHeight st = ch ->
     Editor.imagePreview st = Some img -> Editor.generatedPoster st = true ->
     Editor.imageSize (Permissive.geometryEffect st st) = g /\
     Editor.imageSize (Strict.geometryEffect st st) = g /\
     Editor.imageSize (Strict.onSubmit img st) = g) /\
  (width (imageGeometry 2000 1000 800 1000) == 800 /\
   height (imageGeometry 2000 1000 800 1000) == 400) /\
  (width (imageGeometry 2000 1000 400 100) == 200 /\
   height (imageGeometry 2000 1000 400 100) == 100).
Proof.
  intros Hiw Hih Hcw Hch g.
  destruct (imageGeometry_fits iw ih cw ch Hiw Hih Hcw Hch)
    as (Hw & Hh & _ & _ & Hr).
  fold g in Hw, Hh, Hr.
  split; [|split; [|split; [|split; [|split; [|split; [|split]]]]]];
    try assumption.
  - intro Hle. apply Qgtb_false in Hle. subst g. unfold imageGeometry.
    rewrite Hle. reflexivity.
  - intro Hlt. apply Qgtb_true in Hlt. subst g. unfold imageGeometry.
    rewrite Hlt. reflexivity.
  - intros st url img Ew Eh Ei Eg.
    unfold Permissive.geometryEffect, Strict.geometryEffect, Strict.onSubmit.
    rewrite Eg, Ei, Ew, Eh. cbn. repeat split; reflexivity.
  - split; reflexivity.
  - split; reflexivity.
Qed.

Lemma imageGeometry_contain_fit_witness :
  width (imageGeometry 2000 1000 400 100) <= 400 /\
  height (imageGeometry 2000 1000 400 100) <= 100.
Proof.
  pose proof (imageGeometry_contain_fit 2000 1000 400 100
                eq_refl eq_refl eq_refl eq_refl) as H.
  cbv zeta in H.
  destruct H as (_ & _ & Hw & Hh & _).
  split; assumption.
Defined.

(** *** Drag commits *)

Lemma committedWithin_inBounds (canvas : Size) (p : Position) (sz : Size) :
  committedWithin canvas p sz ->
  width sz <= width canvas -> height sz <= height canvas ->
  inBounds canvas p sz.
Proof.
  intros (Hx & Hy & Hr & Hb) Hw Hh. unfold inBounds. auto.
Qed.

Lemma permissive_dragStop (m : Measured) (l : Layer) (p : Position)
    (st : Editor.State) :
  Editor.generatedPoster st = true ->
  (l = Image -> Editor.imagePreview st <> None) ->
  Permissive.step m (Permissive.Pointer (DragStop l p)) st
  = Editor.onStop l
      (boundToParent (Editor.canvas st) (origin (Permissive.render m st) l)
         (Editor.layerBox m l st) p) st.
Proof.
  intros Hg Hi. rewrite permissive_step_pointer.
  unfold Permissive.render. rewrite Hg.
  destruct (Editor.imagePreview st) as [img|] eqn:E.
  - destruct l; reflexivity.
  - destruct l; [exfalso; apply Hi; reflexivity | reflexivity ..].
Qed.






Lemma onStop_idempotent (l : Layer) (data : Position) (st : Editor.State) :
  Editor.onStop l data (Editor.onStop l data st) = Editor.onStop l data st.
Proof. destruct l; reflexivity. Qed.

Lemma strict_dragStop_idempotent (m : Measured) (l : Layer) (p : Position)
    (st : Editor.State) :
  Strict.step m (Strict.Pointer (DragStop l p))
    (Strict.step m (Strict.Pointer (DragStop l p)) st)
  = Strict.step m (Strict.Pointer (DragStop l p)) st.
Proof.
  destruct (Editor.generatedPoster st) eqn:Hg.
  - rewrite (strict_dragStop m l p st Hg).
    set (b := boundToParent (Editor.canvas st) (origin (Strict.render m st) l)
                (Editor.layerBox m l st) p).
    destruct (onStop_frame l b st) as (_ & Hcv & Hg' & _ & _).
    destruct (onStop_origin m l l b st) as (Ho & _).
    rewrite strict_dragStop by (rewrite Hg'; exact Hg).
    rewrite Hcv, Ho, onStop_layerBox. fold b. apply onStop_idempotent.
  - rewrite (strict_dragStop_unmounted m l p st Hg).
    apply strict_dragStop_unmounted, Hg.
Qed.

Lemma permissive_dragStop_idle (m : Measured) (l : Layer) (p : Position)
    (st : Editor.State) :
  Editor.generatedPoster st = false \/
  (l = Image /\ Editor.imagePreview st = None) ->
  Permissive.step m (Permissive.Pointer (DragStop l p)) st = st.
Proof.
  intro H. rewrite permissive_step_pointer. unfold Permissive.render.
  destruct H as [Hg|[El Hi]].
  - rewrite Hg. reflexivity.
  - subst l. rewrite Hi. destruct (Editor.generatedPoster st); reflexivity.
Qed.

Lemma permissive_dragStop_idempotent (m : Measured) (l : Layer) (p : Position)
    (st : Editor.State) :
  Permissive.step m (Permissive.Pointer (DragStop l p))
    (Permissive.step m (Permissive.Pointer (DragStop l p)) st)
  = Permissive.step m (Permissive.Pointer (DragStop l p)) st.
Proof.
  assert (Hcases : (Editor.generatedPoster st = true /\
                    (l = Image -> Editor.imagePreview st <> None)) \/
                   (Editor.generatedPoster st = false \/
                    (l = Image /\ Editor.imagePreview st = None))).
  { destruct (Editor.generatedPoster st); [|right; left; reflexivity].
    destruct (Editor.imagePreview st) as [img|].
    - left. split; [reflexivity | intros _; discriminate].
    - destruct l; try (left; split; [reflexivity | discriminate]).
      right. right. split; reflexivity. }
  destruct Hcases as [[Hg Hi]|Hidle].
  - rewrite (permissive_dragStop m l p st Hg Hi).
    set (b := boundToParent (Editor.canvas st) (origin (Permissive.render m st) l)
                (Editor.layerBox m l st) p).
    destruct (onStop_frame l b st) as (_ & Hcv & Hg' & Hi' & _).
    destruct (onStop_origin m l l b st) as (_ & Ho).
    rewrite permissive_dragStop
      by (rewrite ?Hg', ?Hi'; assumption).
    rewrite Hcv, Ho, onStop_layerBox. fold b. apply onStop_idempotent.
  - rewrite (permissive_dragStop_idle m l p st Hidle).
    apply permissive_dragStop_idle, Hidle.
Qed.

(** What a resize-stop on the image commits, in the two re-resizable
    revisions. *)
Lemma strict_resizeStop (m : Measured) (drag : Size) (st : Editor.State) :
  Editor.generatedPoster st = true ->
  Strict.step m (Strict.Pointer (ResizeStop Image drag)) st
  = Editor.onResizeStop
      (resizeDelta (Editor.resizableProps st) (Editor.imageBox st) drag) st.
Proof.
  intro Hg. rewrite strict_step_pointer.
  unfold Strict.render. rewrite Hg. reflexivity.
Qed.

Lemma permissive_resizeStop (m : Measured) (drag : Size) (st : Editor.State) :
  Editor.generatedPoster st = true -> Editor.imagePreview st <> None ->
  Permissive.step m (Permissive.Pointer (ResizeStop Image drag)) st
  = Editor.onResizeStop
      (resizeDelta (Editor.resizableProps st) (Editor.imageBox st) drag) st.
Proof.
  intros Hg Hi. rewrite permissive_step_pointer.
  unfold Permissive.render. rewrite Hg.
  destruct (Editor.imagePreview st); [reflexivity | contradiction].
Qed.

(** C8, amended.  A drag commit is idempotent: committing the same drag twice
    on any layer gives the state of committing it once, for the handlers and
    for the whole step, in the three revisions.  A resize commit is not: in
    the permissive revision, and in the strict one as long as the width and
    height fields have not been edited, each end of a resize gesture on the
    image adds the delta the wrapper reports to the stored size, so ending
    the same gesture twice adds two deltas, and the second commit leaves the
    size as it was after the first only when its delta is zero.  In the
    react-resizable revision the reported size replaces the stored one, which
    is idempotent. *)
Theorem drag_commit_idempotent_resize_commit_additive (m : Measured)
    (a st : Editor.State) (evs : list Strict.Event) (s : Legacy.State)
    (l : Layer) (p : Position) (d drag : Size) :
  Editor.generatedPoster st = true -> Editor.imagePreview st <> None ->
  forallb (fun ev => negb (isFieldEdit ev)) evs = true ->
  Editor.generatedPoster (Strict.run m evs Strict.initialState) = true ->
  let adds (before after : Editor.State) :=
    let reported := resizeDelta (Editor.resizableProps before)
                      (Editor.imageBox before) drag in
    Editor.imageSize after
    = {| width := width (Editor.imageSize before) + width reported;
         height := height (Editor.imageSize before) + height reported |} /\
    (width (Editor.imageSize after) == width (Editor.imageSize before)
     <-> width reported == 0) /\
    (height (Editor.imageSize after) == height (Editor.imageSize before)
     <-> height reported == 0) in
  Strict.step m (Strict.Pointer (DragStop l p))
    (Strict.step m (Strict.Pointer (DragStop l p)) a)
  = Strict.step m (Strict.Pointer (DragStop l p)) a /\
  Permissive.step m (Permissive.Pointer (DragStop l p))
    (Permissive.step m (Permissive.Pointer (DragStop l p)) a)
  = Permissive.step m (Permissive.Pointer (DragStop l p)) a /\
  Legacy.step m (Legacy.DragEnd l p) (Legacy.step m (Legacy.DragEnd l p) s)
  = Legacy.step m (Legacy.DragEnd l p) s /\
  Editor.onStop l p (Editor.onStop l p a) = Editor.onStop l p a /\
  Legacy.onResize d (Legacy.onResize d s) = Legacy.onResize d s /\
  (let once := Permissive.step m (Permissive.Pointer (ResizeStop Image drag)) st in
   let twice := Permissive.step m (Permissive.Pointer (ResizeStop Image drag)) once in
   adds st once /\ adds once twice) /\
  (let ss := Strict.run m evs Strict.initialState in
   let once := Strict.step m (Strict.Pointer (ResizeStop Image drag)) ss in
   let twice := Strict.step m (Strict.Pointer (ResizeStop Image drag)) once in
   adds ss once /\ adds once twice).
Proof.
  intros Hg Hi _ Hgs adds.
  assert (Hadds : forall before delta,
            delta = resizeDelta (Editor.resizableProps before)
                      (Editor.imageBox before) drag ->
            adds before (Editor.onResizeStop delta before)).
  { intros before delta ->. unfold adds. cbn.
    split; [reflexivity|]. split; split; intro H; lra. }
  split; [apply strict_dragStop_idempotent|].
  split; [apply permissive_dragStop_idempotent|].
  split.
  { destruct s as [ip gp tp qp isz ww wh].
    destruct gp, l; reflexivity. }
  split; [apply onStop_idempotent|].
  split; [reflexivity|].
  split.
  - cbv zeta. rewrite (permissive_resizeStop m drag st Hg Hi).
    split; [apply Hadds; reflexivity|].
    rewrite permissive_resizeStop by assumption.
    apply Hadds; reflexivity.
  - cbv zeta. rewrite (strict_resizeStop m drag _ Hgs).
    split; [apply Hadds; reflexivity|].
    rewrite strict_resizeStop by exact Hgs.
    apply Hadds; reflexivity.
Qed.

Lemma drag_commit_idempotent_resize_commit_additive_witness :
  let m := {| titleSize := {| width := 300; height := 60 |};
              subtitleSize := {| width := 200; height := 36 |};
              qrCodeSize := {| width := 116; height := 116 |} |} in
  let pic := Editor.mkImageData "data:image/png;base64,AAAA" 2000 1000 in
  let st := Permissive.step m (Permissive.Submit (Some pic)) Permissive.initialState in
  let drag := {| width := 0; height := -40 |} in
  let once := Permissive.step m (Permissive.Pointer (ResizeStop Image drag)) st in
  let twice := Permissive.step m (Permissive.Pointer (ResizeStop Image drag)) once in
  width (Editor.imageSize twice) == width (Editor.imageSize once).
Proof.
  intros m pic st drag once twice.
  assert (Hi : Editor.imagePreview st <> None) by (intro E; discriminate E).
  pose proof (drag_commit_idempotent_resize_commit_additive m st st
                [Strict.Submit pic]
                (Legacy.step m (Legacy.Submit (Some "data:image/png;base64,AAAA"))
                   Legacy.initialState)
                QRCode {| x := 10; y := 10 |} drag drag
                eq_refl Hi eq_refl eq_refl) as H.
  cbv zeta in H.
  destruct H as (_ & _ & _ & _ & _ & (_ & _ & H & _) & _).
  apply H. reflexivity.
Defined.

(** C8, counterexample.  On the default canvas, with a 2000x1000 picture
    (1080x540 after fitting), ending a resize gesture that shrinks the image
    by (80, 40) gives 1000x500; ending the same gesture again gives 920x460.
    Both deltas lie within the limits of the wrapper and reach the handler
    unchanged. *)
Lemma resize_commit_twice_drifts :
  let m := {| titleSize := {| width := 300; height := 60 |};
              subtitleSize := {| width := 200; height := 36 |};
              qrCodeSize := {| width := 116; height := 116 |} |} in
  let st := Strict.step m (Strict.Submit (Editor.mkImageData "data:image/png;base64,AAAA" 2000 1000))
              Strict.initialState in
  let d := {| width := -80; height := -40 |} in
  let once := Strict.step m (Strict.Pointer (ResizeStop Image d)) st in
  let twice := Strict.step m (Strict.Pointer (ResizeStop Image d)) once in
  width (resizeDelta (Editor.resizableProps st) (Editor.imageBox st) d) == width d /\
  width (resizeDelta (Editor.resizableProps once) (Editor.imageBox once) d) == width d /\
  width (Editor.imageSize once) == 1000 /\ height (Editor.imageSize once) == 500 /\
  width (Editor.imageSize twice) == 920 /\ height (Editor.imageSize twice) == 460 /\
  twice <> once /\
  Editor.onResizeStop d (Editor.onResizeStop d st) <> Editor.onResizeStop d st.
Proof.
  intros m st d once twice.
  repeat split; try reflexivity.
  - intro H.
    apply (f_equal (fun s => Qeq_bool (width (Editor.imageSize s)) 1000)) in H.
    vm_compute in H. discriminate H.
  - intro H.
    apply (f_equal (fun s => Qeq_bool (width (Editor.imageSize s)) 1000)) in H.
    vm_compute in H. discriminate H.
Qed.

(** *** Frame of the commits *)

Lemma gesture_drag_frame (nodes : list Node) (l l' : Layer) (p : Position)
    (st : Editor.State) :
  l' <> l ->
  let st' := Editor.gesture nodes (DragStop l p) st in
  Editor.layerPosition l' st' = Editor.layerPosition l' st /\
  Editor.imageSize st' = Editor.imageSize st.
Proof.
  intro Hl. cbn.
  destruct (findNode l nodes) as [n|]; [|split; reflexivity].
  destruct (draggable n); [|split; reflexivity].
  destruct (onStop_frame l (boundToParent (Editor.canvas st) (origin nodes l)
                              (size n) p) st)
    as (Hsz & _ & _ & _ & Hpos).
  split; [apply Hpos, Hl | exact Hsz].
Qed.

Lemma gesture_resize_frame (nodes : list Node) (l l' : Layer) (drag : Size)
    (st : Editor.State) :
  Editor.layerPosition l'
    (Editor.gesture nodes (ResizeStop l drag) st) = Editor.layerPosition l' st.
Proof.
  cbn. destruct (findNode l nodes) as [n|]; [|reflexivity].
  destruct (resizable n); [|reflexivity]. destruct l'; reflexivity.
Qed.

(** C10.  In both re-resizable revisions a drag commit of one layer leaves
    the position of every other layer and the image size as they were, a
    resize commit leaves the positions of all four layers as they were, and
    neither touches the picture, the generated flag or the canvas
    dimensions. *)
Theorem commit_changes_one_cell (m : Measured) (st : Editor.State)
    (l l' : Layer) (p : Position) (drag : Size) :
  l' <> l ->
  let unrelated (a b : Editor.State) :=
    Editor.imagePreview a = Editor.imagePreview b /\
    Editor.generatedPoster a = Editor.generatedPoster b /\
    Editor.watchWidth a = Editor.watchWidth b /\
    Editor.watchHeight a = Editor.watchHeight b in
  let dragged := Strict.step m (Strict.Pointer (DragStop l p)) st in
  let resized := Strict.step m (Strict.Pointer (ResizeStop l drag)) st in
  let dragged1 := Permissive.step m (Permissive.Pointer (DragStop l p)) st in
  let resized1 := Permissive.step m (Permissive.Pointer (ResizeStop l drag)) st in
  (Editor.layerPosition l' dragged = Editor.layerPosition l' st /\
   Editor.imageSize dragged = Editor.imageSize st /\ unrelated dragged st) /\
  (Editor.layerPosition l' resized = Editor.layerPosition l' st /\
   Editor.layerPosition l resized = Editor.layerPosition l st /\
   unrelated resized st) /\
  (Editor.layerPosition l' dragged1 = Editor.layerPosition l' st /\
   Editor.imageSize dragged1 = Editor.imageSize st /\ unrelated dragged1 st) /\
  (Editor.layerPosition l' resized1 = Editor.layerPosition l' st /\
   Editor.layerPosition l resized1 = Editor.layerPosition l st /\
   unrelated resized1 st).
Proof.
  intros Hl unrelated dragged resized dragged1 resized1.
  subst dragged resized dragged1 resized1 unrelated. cbv beta.
  rewrite !strict_step_pointer, !permissive_step_pointer.
  repeat match goal with
         | |- _ /\ _ => split
         end;
    try apply gesture_resize_frame;
    try apply (gesture_drag_frame _ l l' p st Hl);
    try apply gesture_frame.
Qed.

Lemma commit_changes_one_cell_witness :
  let m := {| titleSize := {| width := 300; height := 60 |};
              subtitleSize := {| width := 200; height := 36 |};
              qrCodeSize := {| width := 116; height := 116 |} |} in
  let st := Strict.step m (Strict.Submit (Editor.mkImageData "data:image/png;base64,AAAA" 2000 1000))
              Strict.initialState in
  Editor.layerPosition QRCode
    (Strict.step m (Strict.Pointer (DragStop Title {| x := 300; y := 400 |})) st)
  = {| x := 20; y := 1920 - 120 |}.
Proof.
  intros m st.
  assert (Hl : QRCode <> Title) by discriminate.
  pose proof (commit_changes_one_cell m st Title QRCode {| x := 300; y := 400 |}
                {| width := 10; height := 10 |} Hl) as H.
  cbv zeta in H.
  destruct H as ((H & _) & _).
  rewrite H. reflexivity.
Defined.

(** The same frame in the react-resizable revision: a drag commit of the title
    or the QR code leaves the other position and the image size as they were,
    and a resize frame leaves both positions as they were. *)
Lemma legacy_commit_changes_one_cell (m : Measured) (s : Legacy.State)
    (p : Position) (reported : Size) :
  Legacy.qrCodePosition (Legacy.step m (Legacy.DragEnd Title p) s)
  = Legacy.qrCodePosition s /\
  Legacy.imageSize (Legacy.step m (Legacy.DragEnd Title p) s)
  = Legacy.imageSize s /\
  Legacy.titlePosition (Legacy.step m (Legacy.DragEnd QRCode p) s)
  = Legacy.titlePosition s /\
  Legacy.imageSize (Legacy.step m (Legacy.DragEnd QRCode p) s)
  = Legacy.imageSize s /\
  Legacy.titlePosition (Legacy.step m (Legacy.ResizeFrame Image reported) s)
  = Legacy.titlePosition s /\
  Legacy.qrCodePosition (Legacy.step m (Legacy.ResizeFrame Image reported) s)
  = Legacy.qrCodePosition s.
Proof.
  destruct s as [ip gp tp qp isz ww wh].
  destruct gp; repeat split; reflexivity.
Qed.

(** *** Recomputation of the image size *)

Lemma Qeq_bool_false (a b : Q) : ~ a == b -> Qeq_bool a b = false.
Proof.
  intro H. destruct (Qeq_bool a b) eqn:E; [|reflexivity].
  apply Qeq_bool_iff in E. contradiction.
Qed.

Lemma Qeq_bool_true (a b : Q) : a == b -> Qeq_bool a b = true.
Proof. apply Qeq_bool_iff. Qed.

Lemma strict_step_width (m : Measured) (w : Q) (st : Editor.State) :
  Strict.step m (Strict.ChangeWidth w) st
  = if Qeq_bool (Editor.watchWidth st) w
    then Editor.setWatchWidth w st
    else Strict.geometryEffect (Editor.setWatchWidth w st) (Editor.setWatchWidth w st).
Proof.
  unfold Strict.step, Strict.handle, Strict.runEffects,
    Strict.positionDepsChanged, Strict.geometryDepsChanged.
  cbn [Editor.setWatchWidth Editor.generatedPoster Editor.watchHeight
       Editor.watchWidth Editor.imagePreview].
  rewrite Bool.eqb_reflx, Qeq_bool_refl, sameImage_refl.
  cbn [negb orb].
  rewrite !orb_false_r.
  destruct (Qeq_bool (Editor.watchWidth st) w); cbn [negb]; reflexivity.
Qed.

Lemma strict_step_height_size (m : Measured) (h : Q) (st : Editor.State) :
  Editor.imageSize (Strict.step m (Strict.ChangeHeight h) st)
  = if Qeq_bool (Editor.watchHeight st) h
    then Editor.imageSize st
    else Editor.imageSize
           (Strict.geometryEffect (Editor.setWatchHeight h st)
              (Editor.setWatchHeight h st)).
Proof.
  unfold Strict.step, Strict.handle, Strict.runEffects,
    Strict.positionDepsChanged, Strict.geometryDepsChanged.
  cbn [Editor.setWatchHeight Editor.generatedPoster Editor.watchHeight
       Editor.watchWidth Editor.imagePreview].
  rewrite Bool.eqb_reflx, Qeq_bool_refl, sameImage_refl.
  cbn [negb orb].
  rewrite !orb_false_r.
  destruct (Qeq_bool (Editor.watchHeight st) h); cbn [negb]; [reflexivity|].
  unfold Strict.positionEffect, Strict.geometryEffect.
  cbn [Editor.setWatchHeight Editor.generatedPoster Editor.imagePreview].
  destruct (Editor.generatedPoster st), (Editor.imagePreview st); reflexivity.
Qed.

Lemma strict_step_submit_size (m : Measured) (file : Editor.ImageData)
    (st : Editor.State) :
  Editor.imageSize (Strict.step m (Strict.Submit file) st)
  = imageGeometry (Editor.naturalWidth file) (Editor.naturalHeight file)
      (Editor.watchWidth st) (Editor.watchHeight st).
Proof.
  unfold Strict.step, Strict.handle, Strict.runEffects.
  destruct (Strict.positionDepsChanged st (Strict.onSubmit file st));
    destruct (Strict.geometryDepsChanged st (Strict.onSubmit file st));
    unfold Strict.positionEffect, Strict.geometryEffect, Strict.onSubmit;
    cbn; reflexivity.
Qed.

Lemma permissive_step_width_size (m : Measured) (w : Q) (st : Editor.State) :
  Editor.imageSize (Permissive.step m (Permissive.ChangeWidth w) st)
  = if Qeq_bool (Editor.watchWidth st) w
    then Editor.imageSize st
    else Editor.imageSize
           (Permissive.geometryEffect (Editor.setWatchWidth w st)
              (Editor.setWatchWidth w st)).
Proof.
  unfold Permissive.step, Permissive.handle, Permissive.runEffects,
    Permissive.geometryDepsChanged.
  cbn [Editor.setWatchWidth Editor.generatedPoster Editor.watchHeight
       Editor.watchWidth Editor.imagePreview].
  rewrite Bool.eqb_reflx, Qeq_bool_refl, sameImage_refl.
  cbn [negb orb]. rewrite !orb_false_r.
  destruct (Qeq_bool (Editor.watchWidth st) w); cbn [negb]; reflexivity.
Qed.

Lemma permissive_step_height_size (m : Measured) (h : Q) (st : Editor.State) :
  Editor.imageSize (Permissive.step m (Permissive.ChangeHeight h) st)
  = if Qeq_bool (Editor.watchHeight st) h
    then Editor.imageSize st
    else Editor.imageSize
           (Permissive.geometryEffect (Editor.setWatchHeight h st)
              (Editor.setWatchHeight h st)).
Proof.
  unfold Permissive.step, Permissive.handle, Permissive.runEffects,
    Permissive.geometryDepsChanged.
  cbn [Editor.setWatchHeight Editor.generatedPoster Editor.watchHeight
       Editor.watchWidth Editor.imagePreview].
  rewrite Bool.eqb_reflx, Qeq_bool_refl, sameImage_refl.
  cbn [negb orb].
  destruct (Qeq_bool (Editor.watchHeight st) h); cbn [negb]; reflexivity.
Qed.

(** C3, amended.  With a picture present, the image size is recomputed as the
    fitted geometry whenever the canvas width or the canvas height changes,
    whatever the size was before, hence also after a manual resize: in the
    strict revision always, and there also on every form submission; in the
    permissive revision once a poster has been generated.  When the width or
    height field is set to the value it already has, and on drag commits, the
    size is left as it is. *)
Theorem geometry_recomputed_on_dependency_change (m : Measured)
    (st : Editor.State) (img : Editor.ImageData) :
  Editor.imagePreview st = Some img ->
  let fit w h :=
    imageGeometry (Editor.naturalWidth img) (Editor.naturalHeight img) w h in
  (forall w, ~ w == Editor.watchWidth st ->
     Editor.imageSize (Strict.step m (Strict.ChangeWidth w) st)
     = fit w (Editor.watchHeight st)) /\
  (forall h, ~ h == Editor.watchHeight st ->
     Editor.imageSize (Strict.step m (Strict.ChangeHeight h) st)
     = fit (Editor.watchWidth st) h) /\
  (forall drag w, ~ w == Editor.watchWidth st ->
     Editor.imageSize
       (Strict.step m (Strict.ChangeWidth w)
          (Strict.step m (Strict.Pointer (ResizeStop Image drag)) st))
     = fit w (Editor.watchHeight st)) /\
  (forall file,
     Editor.imageSize (Strict.step m (Strict.Submit file) st)
     = imageGeometry (Editor.naturalWidth file) (Editor.naturalHeight file)
         (Editor.watchWidth st) (Editor.watchHeight st)) /\
  (forall w, w == Editor.watchWidth st ->
     Editor.imageSize (Strict.step m (Strict.ChangeWidth w) st)
     = Editor.imageSize st) /\
  (forall h, h == Editor.watchHeight st ->
     Editor.imageSize (Strict.step m (Strict.ChangeHeight h) st)
     = Editor.imageSize st) /\
  (forall l p,
     Editor.imageSize (Strict.step m (Strict.Pointer (DragStop l p)) st)
     = Editor.imageSize st) /\
  (Editor.generatedPoster st = true ->
   (forall w, ~ w == Editor.watchWidth st ->
      Editor.imageSize (Permissive.step m (Permissive.ChangeWidth w) st)
      = fit w (Editor.watchHeight st)) /\
   (forall h, ~ h == Editor.watchHeight st ->
      Editor.imageSize (Permissive.step m (Permissive.ChangeHeight h) st)
      = fit (Editor.watchWidth st) h)) /\
  (forall w, w == Editor.watchWidth st ->
     Editor.imageSize (Permissive.step m (Permissive.ChangeWidth w) st)
     = Editor.imageSize st) /\
  (forall h, h == Editor.watchHeight st ->
     Editor.imageSize (Permissive.step m (Permissive.ChangeHeight h) st)
     = Editor.imageSize st).
Proof.
  intros Hi fit.
  assert (Hwidth : forall s w, Editor.imagePreview s = Some img ->
            ~ w == Editor.watchWidth s ->
            Editor.imageSize (Strict.step m (Strict.ChangeWidth w) s)
            = fit w (Editor.watchHeight s)).
  { intros s w Hs Hw. rewrite strict_step_width.
    rewrite Qeq_bool_false by (intro E; apply Hw; symmetry; exact E).
    unfold Strict.geometryEffect. cbn [Editor.setWatchWidth Editor.imagePreview].
    rewrite Hs. reflexivity. }
  split; [|split; [|split; [|split; [|split; [|split;
    [|split; [|split; [|split]]]]]]]].
  - intros w Hw. apply Hwidth; assumption.
  - intros h Hh. rewrite strict_step_height_size.
    rewrite Qeq_bool_false by (intro E; apply Hh; symmetry; exact E).
    unfold Strict.geometryEffect. cbn [Editor.setWatchHeight Editor.imagePreview].
    rewrite Hi. reflexivity.
  - intros drag w Hw.
    rewrite strict_step_pointer.
    destruct (gesture_frame (Strict.render m st) (ResizeStop Image drag) st)
      as (Ei & _ & Ew & Eh).
    cbv zeta in Ei, Ew, Eh.
    rewrite Hwidth; [rewrite Eh; reflexivity | rewrite Ei; exact Hi | rewrite Ew; exact Hw].
  - intro file. apply strict_step_submit_size.
  - intros w Hw. rewrite strict_step_width.
    rewrite Qeq_bool_true by (symmetry; exact Hw). reflexivity.
  - intros h Hh. rewrite strict_step_height_size.
    rewrite Qeq_bool_true by (symmetry; exact Hh). reflexivity.
  - intros l p. rewrite strict_step_pointer.
    cbn. destruct (findNode l (Strict.render m st)) as [n|]; [|reflexivity].
    destruct (draggable n); [|reflexivity]. destruct l; reflexivity.
  - intro Hg. split.
    + intros w Hw. rewrite permissive_step_width_size.
      rewrite Qeq_bool_false by (intro E; apply Hw; symmetry; exact E).
      unfold Permissive.geometryEffect.
      cbn [Editor.setWatchWidth Editor.imagePreview Editor.generatedPoster].
      rewrite Hg, Hi. reflexivity.
    + intros h Hh. rewrite permissive_step_height_size.
      rewrite Qeq_bool_false by (intro E; apply Hh; symmetry; exact E).
      unfold Permissive.geometryEffect.
      cbn [Editor.setWatchHeight Editor.imagePreview Editor.generatedPoster].
      rewrite Hg, Hi. reflexivity.
  - intros w Hw. rewrite permissive_step_width_size.
    rewrite Qeq_bool_true by (symmetry; exact Hw). reflexivity.
  - intros h Hh. rewrite permissive_step_height_size.
    rewrite Qeq_bool_true by (symmetry; exact Hh). reflexivity.
Qed.

Lemma geometry_recomputed_on_dependency_change_witness :
  let m := {| titleSize := {| width := 300; height := 60 |};
              subtitleSize := {| width := 200; height := 36 |};
              qrCodeSize := {| width := 116; height := 116 |} |} in
  let pic := Editor.mkImageData "data:image/png;base64,AAAA" 2000 1000 in
  let st := Strict.run m [Strict.Submit pic;
                          Strict.Pointer (ResizeStop Image {| width := -80; height := -40 |})]
              Strict.initialState in
  Editor.imageSize (Strict.step m (Strict.ChangeWidth 800) st)
  = imageGeometry 2000 1000 800 1920.
Proof.
  intros m pic st.
  pose proof (geometry_recomputed_on_dependency_change m st pic eq_refl) as H.
  cbv zeta in H.
  destruct H as (H & _).
  apply (H 800). vm_compute. discriminate.
Defined.

(** C3, counterexample.  After the image has been resized by hand from
    1080x540 to 1000x500, changing the canvas width from 1080 to 800 replaces
    the size by the fitted 800x400. *)
Lemma manual_resize_overwritten_by_width_change :
  let m := {| titleSize := {| width := 300; height := 60 |};
              subtitleSize := {| width := 200; height := 36 |};
              qrCodeSize := {| width := 116; height := 116 |} |} in
  let pic := Editor.mkImageData "data:image/png;base64,AAAA" 2000 1000 in
  let resized := Strict.run m [Strict.Submit pic;
                               Strict.Pointer (ResizeStop Image {| width := -80; height := -40 |})]
                   Strict.initialState in
  let after := Strict.step m (Strict.ChangeWidth 800) resized in
  (width (Editor.imageSize resized) == 1000 /\
   height (Editor.imageSize resized) == 500) /\
  Editor.imageSize after = imageGeometry 2000 1000 800 1920 /\
  (width (Editor.imageSize after) == 800 /\
   height (Editor.imageSize after) == 400) /\
  ~ width (Editor.imageSize after) == width (Editor.imageSize resized).
Proof.
  intros m pic resized after.
  repeat split; try reflexivity.
  vm_compute. discriminate.
Qed.

(** *** Initial layers *)





(** *** Resize commits *)

Lemma clamp_compat (a b lo hi : Q) : a == b -> clamp a lo hi == clamp b lo hi.
Proof.
  intro E. unfold clamp.
  destruct (Q.min_spec a hi) as [[H1 E1]|[H1 E1]];
    destruct (Q.min_spec b hi) as [[H2 E2]|[H2 E2]];
    destruct (Q.max_spec (Qmin a hi) lo) as [[H3 E3]|[H3 E3]];
    destruct (Q.max_spec (Qmin b hi) lo) as [[H4 E4]|[H4 E4]];
    rewrite E3, E4; lra.
Qed.

(** Inside the limits the box of the image block has the stored size. *)
Lemma imageBox_inside (st : Editor.State) :
  (100 <= width (Editor.imageSize st) <= Editor.watchWidth st ->
   width (Editor.imageBox st) == width (Editor.imageSize st)) /\
  (100 <= height (Editor.imageSize st) <= Editor.watchHeight st ->
   height (Editor.imageBox st) == height (Editor.imageSize st)).
Proof.
  unfold Editor.imageBox. cbn. split; intros [H1 H2]; apply clamp_inside; assumption.
Qed.

(** What an end of a resize gesture on the image stores, given the handler
    that runs. *)
Lemma onResizeStop_commits (drag : Size) (st : Editor.State) :
  let reported := resizeDelta (Editor.resizableProps st) (Editor.imageBox st) drag in
  let st' := Editor.onResizeStop reported st in
  Editor.imageSize st'
  = {| width := width (Editor.imageSize st) + width reported;
       height := height (Editor.imageSize st) + height reported |} /\
  (100 <= width (Editor.imageSize st) <= Editor.watchWidth st ->
   width (Editor.imageSize st')
   == clamp (width (Editor.imageSize st) + width drag) 100 (Editor.watchWidth st) /\
   100 <= width (Editor.imageSize st') <= Editor.watchWidth st) /\
  (100 <= height (Editor.imageSize st) <= Editor.watchHeight st ->
   height (Editor.imageSize st')
   == clamp (height (Editor.imageSize st) + height drag) 100 (Editor.watchHeight st) /\
   100 <= height (Editor.imageSize st') <= Editor.watchHeight st).
Proof.
  intros reported st'. split; [reflexivity|].
  destruct (imageBox_inside st) as (Hbw & Hbh).
  split; intro Hin.
  - specialize (Hbw Hin). subst st' reported. unfold resizeDelta.
    cbn [width height Editor.imageSize Editor.onResizeStop Editor.setImageSize
         Editor.resizableProps minWidth minHeight maxWidth maxHeight].
    assert (E : clamp (width (Editor.imageBox st) + width drag) 100 (Editor.watchWidth st)
                == clamp (width (Editor.imageSize st) + width drag) 100
                     (Editor.watchWidth st))
      by (apply clamp_compat; rewrite Hbw; reflexivity).
    destruct (clamp_spec (width (Editor.imageSize st) + width drag) 100
                (Editor.watchWidth st)) as (Hlo & Hhi).
    assert (Hc : 100 <= Editor.watchWidth st) by lra. specialize (Hhi Hc).
    split; [|split]; lra.
  - specialize (Hbh Hin). subst st' reported. unfold resizeDelta.
    cbn [width height Editor.imageSize Editor.onResizeStop Editor.setImageSize
         Editor.resizableProps minWidth minHeight maxWidth maxHeight].
    assert (E : clamp (height (Editor.imageBox st) + height drag) 100
                  (Editor.watchHeight st)
                == clamp (height (Editor.imageSize st) + height drag) 100
                     (Editor.watchHeight st))
      by (apply clamp_compat; rewrite Hbh; reflexivity).
    destruct (clamp_spec (height (Editor.imageSize st) + height drag) 100
                (Editor.watchHeight st)) as (Hlo & Hhi).
    assert (Hc : 100 <= Editor.watchHeight st) by lra. specialize (Hhi Hc).
    split; [|split]; lra.
Qed.

(** C5, amended.  In the re-resizable revisions only the image layer is
    resizable: a resize gesture on any other layer changes nothing.
    Intermediate frames of a resize gesture change nothing; the commit
    happens when the gesture ends.  In the permissive revision, and in the
    strict one as long as the width and height fields have not been edited,
    the commit sets the size to the old size plus the delta the wrapper
    reports, which is measured on the box of the image block.  When the old
    width is between 100 and the canvas width, the new width is the old width
    plus the dragged amount, clamped to that range, and likewise for the
    height; a stored width or height below 100 can stay below 100.  In the
    react-resizable revision every frame of a resize gesture on the image
    replaces the size by the reported one and the end of the gesture changes
    nothing. *)
Theorem resize_commit_image_only_clamped (m : Measured) (a st : Editor.State)
    (evs : list Strict.Event) (drag : Size) :
  Editor.generatedPoster st = true -> Editor.imagePreview st <> None ->
  forallb (fun ev => negb (isFieldEdit ev)) evs = true ->
  Editor.generatedPoster (Strict.run m evs Strict.initialState) = true ->
  let commits (before after : Editor.State) :=
    let reported := resizeDelta (Editor.resizableProps before)
                      (Editor.imageBox before) drag in
    Editor.imageSize after
    = {| width := width (Editor.imageSize before) + width reported;
         height := height (Editor.imageSize before) + height reported |} /\
    (100 <= width (Editor.imageSize before) <= Editor.watchWidth before ->
     width (Editor.imageSize after)
     == clamp (width (Editor.imageSize before) + width drag) 100
          (Editor.watchWidth before) /\
     100 <= width (Editor.imageSize after) <= Editor.watchWidth before) /\
    (100 <= height (Editor.imageSize before) <= Editor.watchHeight before ->
     height (Editor.imageSize after)
     == clamp (height (Editor.imageSize before) + height drag) 100
          (Editor.watchHeight before) /\
     100 <= height (Editor.imageSize after) <= Editor.watchHeight before) in
  let ss := Strict.run m evs Strict.initialState in
  ((forall n, In n (Strict.render m a) -> resizable n = true -> layer n = Image) /\
   (forall l, l <> Image ->
      Strict.step m (Strict.Pointer (ResizeStop l drag)) a = a) /\
   (forall l, Strict.step m (Strict.Pointer (ResizeMove l drag)) a = a) /\
   commits ss (Strict.step m (Strict.Pointer (ResizeStop Image drag)) ss)) /\
  ((forall n, In n (Permissive.render m a) -> resizable n = true -> layer n = Image) /\
   (forall l, l <> Image ->
      Permissive.step m (Permissive.Pointer (ResizeStop l drag)) a = a) /\
   (forall l, Permissive.step m (Permissive.Pointer (ResizeMove l drag)) a = a) /\
   commits st (Permissive.step m (Permissive.Pointer (ResizeStop Image drag)) st)) /\
  (forall (s : Legacy.State) (reported : Size),
     Legacy.generatedPoster s = true ->
     Legacy.step m (Legacy.ResizeFrame Image reported) s
     = Legacy.setImageSize reported s /\
     Legacy.step m (Legacy.ResizeEnd Image reported) s = s).
Proof.
  intros Hg Hi _ Hgs commits ss.
  split; [|split].
  - split; [|split; [|split]].
    + unfold Strict.render. destruct (Editor.generatedPoster a); cbn.
      * intros n [E|[E|[E|[E|[]]]]] Hr; subst n; cbn in *;
          [reflexivity | discriminate ..].
      * intros n [].
    + intros l Hl. rewrite strict_step_pointer.
      unfold Strict.render. destruct (Editor.generatedPoster a); [|reflexivity].
      destruct l; [exfalso; apply Hl; reflexivity | reflexivity ..].
    + intro l. rewrite strict_step_pointer. reflexivity.
    + rewrite (strict_resizeStop m drag ss Hgs). apply onResizeStop_commits.
  - split; [|split; [|split]].
    + unfold Permissive.render. destruct (Editor.generatedPoster a); cbn.
      * destruct (Editor.imagePreview a); cbn.
        -- intros n [E|[E|[E|[E|[]]]]] Hr; subst n; cbn in *;
             [reflexivity | discriminate ..].
        -- intros n [E|[E|[E|[]]]] Hr; subst n; cbn in *; discriminate.
      * intros n [].
    + intros l Hl. rewrite permissive_step_pointer.
      unfold Permissive.render. destruct (Editor.generatedPoster a); [|reflexivity].
      destruct (Editor.imagePreview a);
        (destruct l; [exfalso; apply Hl; reflexivity | reflexivity ..]).
    + intro l. rewrite permissive_step_pointer. reflexivity.
    + rewrite (permissive_resizeStop m drag st Hg Hi). apply onResizeStop_commits.
  - intros s reported Hs. unfold Legacy.step, Legacy.render. rewrite Hs.
    split; reflexivity.
Qed.

Lemma resize_commit_image_only_clamped_witness :
  let m := {| titleSize := {| width := 300; height := 60 |};
              subtitleSize := {| width := 200; height := 36 |};
              qrCodeSize := {| width := 116; height := 116 |} |} in
  let pic := Editor.mkImageData "data:image/png;base64,AAAA" 2000 1000 in
  let st := Strict.run m [Strict.Submit pic] Strict.initialState in
  let st' := Strict.step m (Strict.Pointer (ResizeStop Image {| width := 5000; height := -5000 |})) st in
  width (Editor.imageSize st') <= 1080 /\ 100 <= height (Editor.imageSize st').
Proof.
  intros m pic st st'.
  assert (Hi : Editor.imagePreview
                 (Permissive.step m (Permissive.Submit (Some pic))
                    Permissive.initialState) <> None)
    by (intro E; discriminate E).
  pose proof (resize_commit_image_only_clamped m st
                (Permissive.step m (Permissive.Submit (Some pic))
                   Permissive.initialState)
                [Strict.Submit pic] {| width := 5000; height := -5000 |}
                eq_refl Hi eq_refl eq_refl) as H.
  cbv zeta in H.
  destruct H as ((_ & _ & _ & _ & Hw & Hh) & _).
  assert (Hwin : 100 <= width (Editor.imageSize st) <= Editor.watchWidth st)
    by (split; vm_compute; discriminate).
  assert (Hhin : 100 <= height (Editor.imageSize st) <= Editor.watchHeight st)
    by (split; vm_compute; discriminate).
  destruct (Hw Hwin) as (_ & _ & Hw').
  destruct (Hh Hhin) as (_ & Hh' & _).
  split; [exact Hw' | exact Hh'].
Defined.

(** C5, counterexample.  On the default 1080x1920 canvas a 2000x100 picture
    is fitted to 1080x54, while the block around it is 100 high, the minimum
    of the wrapper.  Ending a resize gesture that pulls the lower edge down
    by 10 reports the delta (0, 10) and commits the height 64, below 100.  In
    the react-resizable revision an intermediate frame of a resize gesture
    already changes the stored size, here to 2000x50 on an 800x1000
    canvas. *)
Lemma resize_commit_below_minimum :
  let m := {| titleSize := {| width := 300; height := 60 |};
              subtitleSize := {| width := 200; height := 36 |};
              qrCodeSize := {| width := 116; height := 116 |} |} in
  let wide := Editor.mkImageData "data:image/png;base64,AAAA" 2000 100 in
  let st := Strict.step m (Strict.Submit wide) Strict.initialState in
  let drag := {| width := 0; height := 10 |} in
  let st' := Strict.step m (Strict.Pointer (ResizeStop Image drag)) st in
  let s := Legacy.step m (Legacy.Submit (Some "data:image/png;base64,AAAA"))
             Legacy.initialState in
  let s' := Legacy.step m (Legacy.ResizeFrame Image {| width := 2000; height := 50 |}) s in
  (Editor.canvas st' = {| width := 1080; height := 1920 |} /\
   (width (Editor.imageSize st) == 1080 /\ height (Editor.imageSize st) == 54) /\
   (width (Editor.imageBox st) == 1080 /\ height (Editor.imageBox st) == 100) /\
   height (resizeDelta (Editor.resizableProps st) (Editor.imageBox st) drag) == 10 /\
   (width (Editor.imageSize st') == 1080 /\ height (Editor.imageSize st') == 64) /\
   ~ 100 <= height (Editor.imageSize st')) /\
  (Legacy.imageSize s = {| width := 800; height := 600 |} /\
   Legacy.imageSize s' = {| width := 2000; height := 50 |} /\
   Legacy.watchWidth s' = 800 /\
   ~ width (Legacy.imageSize s') <= Legacy.watchWidth s').
Proof.
  intros m wide st drag st' s s'.
  repeat split; try reflexivity.
  - vm_compute. intro H. apply H. reflexivity.
  - vm_compute. intro H. apply H. reflexivity.
Qed.

(** *** Export *)

Lemma downloadPoster_unmounted (rasterise : Surface -> Promise RasterImage) :
  downloadPoster rasterise None
  = ([toast "Error" "Could not generate poster. Please try again." destructive],
     None).
Proof. reflexivity. Qed.

Lemma downloadPoster_rejected (rasterise : Surface -> Promise RasterImage)
    (node : Surface) (reason : string) :
  rasterise node = Rejected reason ->
  downloadPoster rasterise (Some node)
  = ([toast "Error" "Could not download poster. Please try again." destructive],
     Some (Fulfilled tt)).
Proof. intro H. unfold downloadPoster. rewrite H. reflexivity. Qed.

Lemma downloadPoster_settles (rasterise : Surface -> Promise RasterImage)
    (current : option Surface) (chain : Promise unit) :
  snd (downloadPoster rasterise current) = Some chain -> chain = Fulfilled tt.
Proof.
  destruct current as [node|]; cbn; [|discriminate].
  destruct (rasterise node); cbn; intro E; injection E as <-; reflexivity.
Qed.

(** C6.  When the poster element is not mounted, which is the case whenever
    no poster has been generated, the download handler emits exactly one
    notification, starts no download and starts no promise.  When the
    rasteriser rejects, the rejection is caught: one notification is emitted,
    nothing is downloaded and the promise chain ends fulfilled.  The editor
    state is the same after the handler in every case.  This holds in the
    three revisions. *)
Theorem export_failures_are_reported (m : Measured) (st : Editor.State)
    (s : Legacy.State) (rasterise : Surface -> Promise RasterImage) :
  let unavailable :=
    ([toast "Error" "Could not generate poster. Please try again." destructive],
     @None (Promise unit)) in
  let renderError :=
    ([toast "Error" "Could not download poster. Please try again." destructive],
     Some (Fulfilled tt)) in
  (fst (Strict.clickDownload m rasterise st) = st /\
   fst (Permissive.clickDownload m rasterise st) = st /\
   fst (Legacy.clickDownload m rasterise s) = s) /\
  (Editor.generatedPoster st = false ->
   Strict.posterRef m st = None /\
   Permissive.posterRef m st = None /\
   snd (Strict.clickDownload m rasterise st) = unavailable /\
   snd (Permissive.clickDownload m rasterise st) = unavailable) /\
  (Legacy.generatedPoster s = false ->
   Legacy.posterRef m s = None /\
   snd (Legacy.clickDownload m rasterise s) = unavailable) /\
  (length (notifications (fst unavailable)) = 1%nat /\
   downloads (fst unavailable) = []) /\
  (forall node reason, rasterise node = Rejected reason ->
     (Strict.posterRef m st = Some node ->
      snd (Strict.clickDownload m rasterise st) = renderError) /\
     (Permissive.posterRef m st = Some node ->
      snd (Permissive.clickDownload m rasterise st) = renderError) /\
     (Legacy.posterRef m s = Some node ->
      snd (Legacy.clickDownload m rasterise s) = renderError)) /\
  (length (notifications (fst renderError)) = 1%nat /\
   downloads (fst renderError) = []) /\
  (forall chain,
     snd (snd (Strict.clickDownload m rasterise st)) = Some chain \/
     snd (snd (Permissive.clickDownload m rasterise st)) = Some chain \/
     snd (snd (Legacy.clickDownload m rasterise s)) = Some chain ->
     chain = Fulfilled tt).
Proof.
  intros unavailable renderError.
  unfold Strict.clickDownload, Permissive.clickDownload, Legacy.clickDownload.
  cbn [fst snd].
  split; [repeat split; reflexivity|].
  split.
  { intro Hg. unfold Strict.posterRef, Permissive.posterRef. rewrite Hg.
    repeat split; reflexivity. }
  split.
  { intro Hg. unfold Legacy.posterRef. rewrite Hg. split; reflexivity. }
  split; [split; reflexivity|].
  split.
  { intros node reason Hr.
    repeat split; intro Hn; rewrite Hn; apply (downloadPoster_rejected _ _ _ Hr). }
  split; [split; reflexivity|].
  intros chain [H|[H|H]]; apply downloadPoster_settles in H; exact H.
Qed.

Lemma export_failures_are_reported_witness :
  let m := {| titleSize := {| width := 300; height := 60 |};
              subtitleSize := {| width := 200; height := 36 |};
              qrCodeSize := {| width := 116; height := 116 |} |} in
  snd (Strict.clickDownload m (toPng (fun _ => false)) Strict.initialState)
  = ([toast "Error" "Could not generate poster. Please try again." destructive],
     None) /\
  snd (Legacy.clickDownload m (toPng (fun _ => false)) Legacy.initialState)
  = ([toast "Error" "Could not generate poster. Please try again." destructive],
     None).
Proof.
  intro m.
  pose proof (export_failures_are_reported m Strict.initialState
                Legacy.initialState (toPng (fun _ => false))) as H.
  cbv zeta in H.
  destruct H as (_ & Hs & Hl & _).
  destruct (Hs eq_refl) as (_ & _ & Hs' & _).
  destruct (Hl eq_refl) as (_ & Hl').
  split; [exact Hs' | exact Hl'].
Defined.

Lemma downloadPoster_downloads (renders : Surface -> bool)
    (current : option Surface) (name : string) (img : RasterImage) :
  In (download name img) (fst (downloadPoster (toPng renders) current)) ->
  name = "magazine-poster.png" /\ mime img = "image/png" /\
  exists node, current = Some node /\ renders node = true /\
               pixelWidth img = styleWidth node /\
               pixelHeight img = styleHeight node.
Proof.
  destruct current as [node|]; cbn.
  - unfold toPng. destruct (renders node) eqn:Hr; cbn.
    + intros [E|[]]. injection E as <- <-.
      split; [reflexivity|]. split; [reflexivity|].
      exists node. repeat split; [exact Hr | reflexivity ..].
    + intros [E|[]]. discriminate E.
  - intros [E|[]]. discriminate E.
Qed.

(** C7.  An export of a generated poster whose rasterisation goes through
    causes exactly one download and no notification, and every download the
    export causes is a PNG named magazine-poster.png whose pixel dimensions
    are the canvas width and height; this holds in the three revisions.
    Generating a poster on the default 1080x1920 canvas and exporting at once
    gives a 1080x1920 picture. *)
Theorem export_png_has_canvas_dimensions (m : Measured) (st : Editor.State)
    (s : Legacy.State) (renders : Surface -> bool) :
  let png (w h : Q) :=
    ([download "magazine-poster.png"
        {| mime := "image/png"; pixelWidth := w; pixelHeight := h |}],
     Some (Fulfilled tt)) in
  (forall name img,
     In (download name img) (fst (snd (Strict.clickDownload m (toPng renders) st))) \/
     In (download name img) (fst (snd (Permissive.clickDownload m (toPng renders) st))) ->
     name = "magazine-poster.png" /\ mime img = "image/png" /\
     pixelWidth img = Editor.watchWidth st /\
     pixelHeight img = Editor.watchHeight st) /\
  (forall name img,
     In (download name img) (fst (snd (Legacy.clickDownload m (toPng renders) s))) ->
     name = "magazine-poster.png" /\ mime img = "image/png" /\
     pixelWidth img = Legacy.watchWidth s /\
     pixelHeight img = Legacy.watchHeight s) /\
  (forall node, renders node = true ->
     (Strict.posterRef m st = Some node ->
      snd (Strict.clickDownload m (toPng renders) st)
      = png (Editor.watchWidth st) (Editor.watchHeight st)) /\
     (Permissive.posterRef m st = Some node ->
      snd (Permissive.clickDownload m (toPng renders) st)
      = png (Editor.watchWidth st) (Editor.watchHeight st)) /\
     (Legacy.posterRef m s = Some node ->
      snd (Legacy.clickDownload m (toPng renders) s)
      = png (Legacy.watchWidth s) (Legacy.watchHeight s))) /\
  ((forall node, renders node = true) ->
   (Editor.generatedPoster st = true ->
    snd (Strict.clickDownload m (toPng renders) st)
    = png (Editor.watchWidth st) (Editor.watchHeight st) /\
    snd (Permissive.clickDownload m (toPng renders) st)
    = png (Editor.watchWidth st) (Editor.watchHeight st)) /\
   (Legacy.generatedPoster s = true ->
    snd (Legacy.clickDownload m (toPng renders) s)
    = png (Legacy.watchWidth s) (Legacy.watchHeight s)) /\
   (forall pic : Editor.ImageData,
      snd (Strict.clickDownload m (toPng renders)
             (Strict.step m (Strict.Submit pic) Strict.initialState))
      = png 1080 1920)).
Proof.
  intro png.
  unfold Strict.clickDownload, Permissive.clickDownload, Legacy.clickDownload.
  cbn [fst snd].
  split; [|split; [|split]].
  - intros name img [H|H]; apply downloadPoster_downloads in H;
      destruct H as (En & Em & node & Hn & _ & Hw & Hh);
      (split; [exact En|]); (split; [exact Em|]); rewrite Hw, Hh.
    + unfold Strict.posterRef in Hn.
      destruct (Editor.generatedPoster st); [|discriminate Hn].
      injection Hn as <-. split; reflexivity.
    + unfold Permissive.posterRef in Hn.
      destruct (Editor.generatedPoster st); [|discriminate Hn].
      injection Hn as <-. split; reflexivity.
  - intros name img H. apply downloadPoster_downloads in H.
    destruct H as (En & Em & node & Hn & _ & Hw & Hh).
    split; [exact En|]. split; [exact Em|]. rewrite Hw, Hh.
    unfold Legacy.posterRef in Hn.
    destruct (Legacy.generatedPoster s); [|discriminate Hn].
    injection Hn as <-. split; reflexivity.
  - intros node Hr. split; [|split]; intro Hn; rewrite Hn;
      unfold downloadPoster, toPng; rewrite Hr.
    + unfold Strict.posterRef in Hn.
      destruct (Editor.generatedPoster st); [|discriminate Hn].
      injection Hn as <-. reflexivity.
    + unfold Permissive.posterRef in Hn.
      destruct (Editor.generatedPoster st); [|discriminate Hn].
      injection Hn as <-. reflexivity.
    + unfold Legacy.posterRef in Hn.
      destruct (Legacy.generatedPoster s); [|discriminate Hn].
      injection Hn as <-. reflexivity.
  - intro Hr. split; [|split].
    + intro Hg. unfold Strict.posterRef, Permissive.posterRef. rewrite Hg.
      unfold downloadPoster, toPng. rewrite !Hr. split; reflexivity.
    + intro Hg. unfold Legacy.posterRef. rewrite Hg.
      unfold downloadPoster, toPng. rewrite Hr. reflexivity.
    + intro pic.
      assert (Hg : Editor.generatedPoster
                     (Strict.step m (Strict.Submit pic) Strict.initialState) = true)
        by reflexivity.
      unfold Strict.posterRef. rewrite Hg.
      unfold downloadPoster, toPng. rewrite Hr. reflexivity.
Qed.

Lemma export_png_has_canvas_dimensions_witness :
  let m := {| titleSize := {| width := 300; height := 60 |};
              subtitleSize := {| width := 200; height := 36 |};
              qrCodeSize := {| width := 116; height := 116 |} |} in
  let s := Legacy.step m (Legacy.Submit (Some "data:image/png;base64,AAAA"))
             Legacy.initialState in
  snd (Legacy.clickDownload m (toPng (fun _ => true)) s)
  = ([download "magazine-poster.png"
        {| mime := "image/png"; pixelWidth := 800; pixelHeight := 1000 |}],
     Some (Fulfilled tt)).
Proof.
  intros m s.
  pose proof (export_png_has_canvas_dimensions m Strict.initialState s
                (fun _ => true)) as H.
  cbv zeta in H.
  destruct H as (_ & _ & _ & H).
  destruct (H (fun node => eq_refl)) as (_ & Hl & _).
  apply Hl. reflexivity.
Defined.

(** *** Validation of the dimensions *)

Lemma isDigit_not (c d : ascii) : isDigit c = true -> isDigit d = false ->
  Ascii.eqb c d = false.
Proof.
  intros Hc Hd. destruct (Ascii.eqb_spec c d) as [E|]; [|reflexivity].
  subst d. congruence.
Qed.

Lemma splitAtDot_digits (s : string) :
  allDigits s = true -> splitAtDot s = (s, None).
Proof.
  induction s as [|c rest IH]; cbn [allDigits splitAtDot]; [reflexivity|].
  intro H. apply andb_true_iff in H as [Hc Hr].
  rewrite (isDigit_not c "."%char Hc eq_refl), (IH Hr). reflexivity.
Qed.

Lemma digitsValue_nonneg (s : string) (acc : Z) :
  allDigits s = true -> (0 <= acc)%Z -> (0 <= digitsValue acc s)%Z.
Proof.
  revert acc. induction s as [|c rest IH]; cbn [allDigits digitsValue]; intros acc H Ha.
  - exact Ha.
  - apply andb_true_iff in H as [Hc Hr]. apply IH; [exact Hr|].
    unfold isDigit in Hc. apply andb_true_iff in Hc as [Hlo _].
    apply N.leb_le in Hlo. unfold digitValue. lia.
Qed.

Lemma matchesDigits_allDigits (s : string) :
  matchesDigits s = true -> allDigits s = true.
Proof. destruct s; [discriminate | exact (fun H => H)]. Qed.

Lemma Number_digits (s : string) :
  matchesDigits s = true -> Number s = Finite (inject_Z (digitsValue 0 s)).
Proof.
  intro H. pose proof (matchesDigits_allDigits s H) as Ha.
  destruct s as [|c rest]; [discriminate H|].
  unfold Number.
  cbn [allDigits] in Ha. apply andb_true_iff in Ha as [Hc Hr].
  rewrite (isDigit_not c "-"%char Hc eq_refl), (isDigit_not c "+"%char Hc eq_refl).
  unfold unsignedDecimal. rewrite splitAtDot_digits by exact H.
  rewrite H. reflexivity.
Qed.

(** C9, amended.  In the react-resizable revision the width and height fields
    pass validation exactly when the raw value is a text of one or more
    decimal digits; the parsed value is then the non-negative integer the
    digits denote.  So negative, fractional, non-numeric and empty values are
    rejected, and zero is accepted.  In the strict revision the fields pass
    exactly when the raw value is a number that is at least 1; zero, negative
    numbers, NaN and texts are rejected, and numbers that are not integers,
    such as 3/2, are accepted. *)
Theorem dimension_validation (v : FieldValue) :
  (isSuccess (Legacy.widthSchema v) = true <->
   exists s, v = VString s /\ matchesDigits s = true) /\
  (isSuccess (Legacy.heightSchema v) = true <->
   exists s, v = VString s /\ matchesDigits s = true) /\
  (forall s, v = VString s -> matchesDigits s = true ->
     Legacy.widthSchema v = success (Finite (inject_Z (digitsValue 0 s))) /\
     Legacy.heightSchema v = success (Finite (inject_Z (digitsValue 0 s))) /\
     (0 <= digitsValue 0 s)%Z) /\
  (Legacy.widthSchema (VString "0") = success (Finite 0) /\
   Legacy.widthSchema (VString "1080") = success (Finite 1080) /\
   Legacy.widthSchema (VString "-5") = failure (invalid_string "Width must be a number") /\
   Legacy.widthSchema (VString "abc") = failure (invalid_string "Width must be a number") /\
   Legacy.widthSchema (VString "1.5") = failure (invalid_string "Width must be a number") /\
   Legacy.widthSchema (VString "") = failure (invalid_string "Width must be a number")) /\
  (isSuccess (Strict.widthSchema v) = true <->
   exists q, v = VNumber (Finite q) /\ 1 <= q) /\
  (isSuccess (Strict.heightSchema v) = true <->
   exists q, v = VNumber (Finite q) /\ 1 <= q) /\
  (Strict.widthSchema (VNumber (Finite 0))
   = failure (too_small "Width must be a positive number") /\
   Strict.widthSchema (VNumber (Finite (-5)))
   = failure (too_small "Width must be a positive number") /\
   Strict.widthSchema (VNumber NaN) = failure invalid_type /\
   Strict.widthSchema (VString "abc") = failure invalid_type /\
   Strict.widthSchema (VNumber (Finite 1080)) = success 1080 /\
   Strict.widthSchema (VNumber (Finite (3 # 2))) = success (3 # 2)).
Proof.
  assert (HL : forall msg,
            isSuccess (z_transform Number (z_regex matchesDigits msg (z_string v))) = true <->
            exists s, v = VString s /\ matchesDigits s = true).
  { intro msg. destruct v as [s|n|]; cbn.
    - destruct (matchesDigits s) eqn:E; cbn.
      + split; [intros _; exists s; auto | reflexivity].
      + split; [discriminate|]. intros (s' & Es & Hs). injection Es as <-. congruence.
    - split; [discriminate | intros (s' & Es & _); discriminate Es].
    - split; [discriminate | intros (s' & Es & _); discriminate Es]. }
  assert (HS : forall msg,
            isSuccess (z_number_min 1 msg (z_number v)) = true <->
            exists q, v = VNumber (Finite q) /\ 1 <= q).
  { intro msg. destruct v as [s|[q|]|]; cbn;
      try (split; [discriminate | intros (q' & Eq & _); discriminate Eq]).
    destruct (Qle_bool 1 q) eqn:E; cbn.
    - split; [intros _; exists q; split; [reflexivity | apply Qle_bool_iff, E]
             | reflexivity].
    - split; [discriminate|]. intros (q' & Eq & Hq). injection Eq as <-.
      apply Qle_bool_iff in Hq. congruence. }
  split; [apply HL|]. split; [apply HL|].
  split.
  { intros s Ev Hs. subst v. unfold Legacy.widthSchema, Legacy.heightSchema.
    cbn. rewrite Hs. cbn. rewrite (Number_digits s Hs).
    repeat split; try reflexivity.
    apply digitsValue_nonneg; [apply matchesDigits_allDigits, Hs | lia]. }
  split; [repeat split; reflexivity|].
  split; [apply HS|]. split; [apply HS|].
  repeat split; reflexivity.
Qed.

Lemma dimension_validation_witness :
  Legacy.widthSchema (VString "800") = success (Finite 800) /\
  Legacy.heightSchema (VString "800") = success (Finite 800).
Proof.
  pose proof (dimension_validation (VString "800")) as H.
  destruct H as (_ & _ & H & _).
  destruct (H "800" eq_refl eq_refl) as (Hw & Hh & _).
  split; [exact Hw | exact Hh].
Defined.

(** C9, counterexample.  The react-resizable revision accepts the width "0",
    which is not a positive integer, and the strict revision accepts the
    width 3/2. *)
Lemma dimension_validation_accepts_zero :
  Legacy.widthSchema (VString "0") = success (Finite 0) /\
  isSuccess (Legacy.heightSchema (VString "0")) = true /\
  Strict.widthSchema (VNumber (Finite (3 # 2))) = success (3 # 2).
Proof. repeat split; reflexivity. Qed.

(** The permissive revision lets texts through that are no positive
    number. *)
Lemma permissive_schema_examples :
  Permissive.widthSchema (VString "abc") = success NaN /\
  Permissive.widthSchema (VString "-5") = success (Finite (-5)) /\
  Permissive.widthSchema (VString "0") = success (Finite 0) /\
  Permissive.widthSchema (VString "")
  = failure (too_small "Width must be a positive number").
Proof. repeat split; reflexivity. Qed.

(** ** Further properties of the code *)

(** *** The fitted geometry *)

Lemma Qgtb_comp (a a' b b' : Q) : a == a' -> b == b' -> Qgtb a b = Qgtb a' b'.
Proof. intros Ha Hb. unfold Qgtb. rewrite Ha, Hb. reflexivity. Qed.

Lemma pos_nonzero (q : Q) : 0 < q -> ~ q == 0.
Proof. intros H E. rewrite E in H. discriminate H. Qed.

(** X1.  The fitted size is the largest one with the picture's aspect ratio
    that fits the canvas: every size with that ratio that is no wider and no
    taller than the canvas is no wider and no taller than the fitted size. *)
Theorem imageGeometry_largest_fit (iw ih cw ch w h : Q) :
  0 < iw -> 0 < ih -> 0 < cw -> 0 < ch -> 0 < h ->
  w / h == iw / ih -> w <= cw -> h <= ch ->
  w <= width (imageGeometry iw ih cw ch) /\
  h <= height (imageGeometry iw ih cw ch).
Proof.
  intros Hiw Hih Hcw Hch Hh Hr Hw Hhc.
  pose proof (aspect_pos iw ih Hiw Hih) as Har.
  assert (Ew : w == h * (iw / ih)).
  { rewrite <- Hr. field. apply pos_nonzero, Hh. }
  unfold imageGeometry.
  destruct (Qgtb (cw / (iw / ih)) ch) eqn:E; cbn [width height].
  - split; [|exact Hhc].
    rewrite Ew. apply Qmult_le_compat_r; [exact Hhc | apply Qlt_le_weak, Har].
  - split; [exact Hw|].
    apply Qle_shift_div_l; [exact Har|]. rewrite <- Ew. exact Hw.
Qed.

Lemma imageGeometry_largest_fit_witness :
  400 <= width (imageGeometry 2000 1000 800 1000) /\
  200 <= height (imageGeometry 2000 1000 800 1000).
Proof.
  apply (imageGeometry_largest_fit 2000 1000 800 1000 400 200);
    vm_compute; try reflexivity; discriminate.
Defined.

(** X2.  Which edge of the canvas the picture fills is decided by comparing
    the proportions: when the picture is at least as wide in proportion as
    the canvas it gets the full canvas width and the height
    canvasWidth * imgHeight / imgWidth, otherwise it gets the full canvas
    height and the width canvasHeight * imgWidth / imgHeight. *)
Theorem imageGeometry_orientation (iw ih cw ch : Q) :
  0 < iw -> 0 < ih -> 0 < cw -> 0 < ch ->
  let g := imageGeometry iw ih cw ch in
  (ih * cw <= iw * ch -> width g = cw /\ height g == cw * ih / iw) /\
  (iw * ch < ih * cw -> height g = ch /\ width g == ch * iw / ih).
Proof.
  intros Hiw Hih Hcw Hch g.
  pose proof (aspect_pos iw ih Hiw Hih) as Har.
  pose proof (pos_nonzero iw Hiw) as Hiw0.
  pose proof (pos_nonzero ih Hih) as Hih0.
  assert (Ediv : cw / (iw / ih) == cw * ih / iw) by (field; split; assumption).
  subst g. unfold imageGeometry.
  split.
  - intro Hle.
    assert (E : Qgtb (cw / (iw / ih)) ch = false).
    { apply Qgtb_false. rewrite Ediv. apply Qle_shift_div_r; [exact Hiw|].
      rewrite (Qmult_comm cw ih), (Qmult_comm ch iw). exact Hle. }
    rewrite E. cbn [width height]. split; [reflexivity | exact Ediv].
  - intro Hlt.
    assert (E : Qgtb (cw / (iw / ih)) ch = true).
    { apply Qgtb_true. rewrite Ediv. apply Qlt_shift_div_l; [exact Hiw|].
      rewrite (Qmult_comm cw ih), (Qmult_comm ch iw). exact Hlt. }
    rewrite E. cbn [width height]. split; [reflexivity|].
    field. exact Hih0.
Qed.

Lemma imageGeometry_orientation_witness :
  height (imageGeometry 600 900 800 1000) = 1000 /\
  width (imageGeometry 600 900 800 1000) == 1000 * 600 / 900.
Proof.
  pose proof (imageGeometry_orientation 600 900 800 1000
                eq_refl eq_refl eq_refl eq_refl) as H.
  cbv zeta in H. destruct H as (_ & H).
  apply H. reflexivity.
Defined.

Lemma imageGeometry_ratio (iw ih iw' ih' cw ch : Q) :
  iw / ih == iw' / ih' ->
  width (imageGeometry iw ih cw ch) == width (imageGeometry iw' ih' cw ch) /\
  height (imageGeometry iw ih cw ch) == height (imageGeometry iw' ih' cw ch).
Proof.
  intro Hr. unfold imageGeometry.
  assert (E : Qgtb (cw / (iw / ih)) ch = Qgtb (cw / (iw' / ih')) ch).
  { apply Qgtb_comp; [rewrite Hr; reflexivity | reflexivity]. }
  rewrite E. destruct (Qgtb (cw / (iw' / ih')) ch); cbn [width height];
    rewrite Hr; split; reflexivity.
Qed.

(** X3.  The fitted size depends on the picture only through its aspect
    ratio: two pictures with the same proportions get the same size, so
    scaling a picture does not change it, and fitting a picture that already
    has the fitted size gives that size again. *)
Theorem imageGeometry_depends_on_ratio_only (iw ih iw' ih' cw ch k : Q) :
  0 < iw -> 0 < ih -> 0 < iw' -> 0 < ih' -> 0 < cw -> 0 < ch -> 0 < k ->
  let g := imageGeometry iw ih cw ch in
  (iw * ih' == iw' * ih ->
   width (imageGeometry iw' ih' cw ch) == width g /\
   height (imageGeometry iw' ih' cw ch) == height g) /\
  (width (imageGeometry (k * iw) (k * ih) cw ch) == width g /\
   height (imageGeometry (k * iw) (k * ih) cw ch) == height g) /\
  (width (imageGeometry (width g) (height g) cw ch) == width g /\
   height (imageGeometry (width g) (height g) cw ch) == height g).
Proof.
  intros Hiw Hih Hiw' Hih' Hcw Hch Hk g.
  pose proof (pos_nonzero ih Hih) as Hih0.
  pose proof (pos_nonzero ih' Hih') as Hih0'.
  pose proof (pos_nonzero k Hk) as Hk0.
  split; [|split].
  - intro Hx. apply imageGeometry_ratio.
    apply (Qmult_inj_r _ _ (ih * ih')).
    + intro E. apply Qmult_integral in E. tauto.
    + transitivity (iw' * ih); [field; assumption|].
      rewrite <- Hx. field. assumption.
  - apply imageGeometry_ratio. field. split; assumption.
  - destruct (imageGeometry_fits iw ih cw ch Hiw Hih Hcw Hch)
      as (_ & _ & _ & _ & Hr).
    apply imageGeometry_ratio. exact Hr.
Qed.

Lemma imageGeometry_depends_on_ratio_only_witness :
  width (imageGeometry 4000 2000 800 1000)
  == width (imageGeometry 2000 1000 800 1000).
Proof.
  pose proof (imageGeometry_depends_on_ratio_only 2000 1000 4000 2000 800 1000 2
                eq_refl eq_refl eq_refl eq_refl eq_refl eq_refl eq_refl) as H.
  cbv zeta in H. destruct H as (H & _).
  apply H. reflexivity.
Defined.

(** *** The other members of the form schema *)

Lemma issueOf_none {A : Type} (r : SafeParse A) :
  issueOf r = None <-> isSuccess r = true.
Proof. destruct r; cbn; split; congruence. Qed.

Lemma isNone_true {A : Type} (o : option A) : Form.isNone o = true <-> o = None.
Proof. destruct o; cbn; split; congruence. Qed.

Lemma imageSchema_issues (files : FileList) :
  imageSchema files
  = ((if exactlyOneFile files then [] else ["Image is required."])
     ++ (if firstFileWithinLimit files then [] else ["Max file size is 5MB."])
     ++ (if firstFileAccepted files then []
         else [".jpg, .jpeg, .png and .webp files are accepted."]))%list.
Proof.
  unfold imageSchema, z_refine. cbn [snd app].
  rewrite <- app_assoc. reflexivity.
Qed.

Lemma accepted_type_in (t : string) :
  existsb (String.eqb t) ACCEPTED_IMAGE_TYPES = true <-> In t ACCEPTED_IMAGE_TYPES.
Proof.
  rewrite existsb_exists. split.
  - intros (u & Hin & Heq). apply String.eqb_eq in Heq. subst u. exact Hin.
  - intro Hin. exists t. split; [exact Hin | apply String.eqb_refl].
Qed.

Lemma imageSchema_passes (files : FileList) :
  imageSchema files = [] <->
  exists f, files = Some [f] /\ (Upload.size f <= 5000000)%N /\
            In (Upload.type f) ["image/jpeg"; "image/jpg"; "image/png"; "image/webp"].
Proof.
  rewrite imageSchema_issues. split.
  - intro H.
    destruct (exactlyOneFile files) eqn:E1; [|discriminate H].
    destruct (firstFileWithinLimit files) eqn:E2; [|discriminate H].
    destruct (firstFileAccepted files) eqn:E3; [|discriminate H].
    destruct files as [[|f [|g rest]]|]; try discriminate E1.
    exists f. split; [reflexivity|]. split.
    + apply N.leb_le. exact E2.
    + apply accepted_type_in. exact E3.
  - intros (f & -> & Hs & Ht). cbn [exactlyOneFile firstFileWithinLimit
      firstFileAccepted List.length Nat.eqb].
    apply N.leb_le in Hs. unfold MAX_FILE_SIZE. rewrite Hs.
    apply accepted_type_in in Ht. rewrite Ht. reflexivity.
Qed.

(** X4.  The image field of the react-resizable and the strict revision
    passes validation exactly when one file is picked, that file has at most
    5,000,000 bytes and its type is image/jpeg, image/jpg, image/png or
    image/webp. *)
Theorem imageSchema_passes_iff (files : FileList) :
  imageSchema files = [] <->
  exists f, files = Some [f] /\ (Upload.size f <= 5000000)%N /\
            In (Upload.type f) ["image/jpeg"; "image/jpg"; "image/png"; "image/webp"].
Proof.
  rewrite imageSchema_issues. split.
  - intro H.
    destruct (exactlyOneFile files) eqn:E1; [|discriminate H].
    destruct (firstFileWithinLimit files) eqn:E2; [|discriminate H].
    destruct (firstFileAccepted files) eqn:E3; [|discriminate H].
    destruct files as [[|f [|g rest]]|]; try discriminate E1.
    exists f. split; [reflexivity|]. split.
    + apply N.leb_le. exact E2.
    + apply accepted_type_in. exact E3.
  - intros (f & -> & Hs & Ht). cbn [exactlyOneFile firstFileWithinLimit
      firstFileAccepted List.length Nat.eqb].
    apply N.leb_le in Hs. unfold MAX_FILE_SIZE. rewrite Hs.
    apply accepted_type_in in Ht. rewrite Ht. reflexivity.
Qed.

Lemma imageSchema_passes_iff_witness :
  imageSchema (Some [Upload.mkFile 5000000 "image/webp"
                       (Editor.mkImageData "data:image/webp;base64,AAAA" 10 10)])
  = [].
Proof.
  apply imageSchema_passes_iff.
  eexists. split; [reflexivity|]. split; [vm_compute; discriminate|].
  cbn. auto.
Defined.

(** X5.  With no file picked (a null value or an empty list) all three checks
    of the image field fail, in the order they are declared.  The message
    shown for the field is the first failure: "Image is required." whenever
    the number of picked files is not one, otherwise the size message when
    the file is too large, otherwise the type message. *)
Theorem imageSchema_first_error (files : FileList) :
  (files = None \/ files = Some [] ->
   imageSchema files
   = ["Image is required."; "Max file size is 5MB.";
      ".jpg, .jpeg, .png and .webp files are accepted."]) /\
  (exactlyOneFile files = false ->
   hd_error (imageSchema files) = Some "Image is required.") /\
  (forall f, files = Some [f] ->
     hd_error (imageSchema files)
     = if (5000000 <? Upload.size f)%N then Some "Max file size is 5MB."
       else if existsb (String.eqb (Upload.type f)) ACCEPTED_IMAGE_TYPES then None
            else Some ".jpg, .jpeg, .png and .webp files are accepted.").
Proof.
  rewrite imageSchema_issues. split; [|split].
  - intros [->| ->]; reflexivity.
  - intro E. rewrite E. reflexivity.
  - intros f ->. cbn [exactlyOneFile firstFileWithinLimit firstFileAccepted
      List.length Nat.eqb app]. unfold MAX_FILE_SIZE.
    rewrite N.ltb_antisym.
    destruct (Upload.size f <=? 5000000)%N; cbn [negb app hd_error];
      [|reflexivity].
    destruct (existsb (String.eqb (Upload.type f)) ACCEPTED_IMAGE_TYPES);
      reflexivity.
Qed.

Lemma imageSchema_first_error_witness :
  hd_error (imageSchema (Some [])) = Some "Image is required." /\
  hd_error (imageSchema
              (Some [Upload.mkFile 6000000 "image/gif"
                       (Editor.mkImageData "data:image/gif;base64,AAAA" 10 10)]))
  = Some "Max file size is 5MB.".
Proof.
  split.
  - destruct (imageSchema_first_error (Some [])) as (_ & H & _).
    apply H. reflexivity.
  - destruct (imageSchema_first_error
                (Some [Upload.mkFile 6000000 "image/gif"
                         (Editor.mkImageData "data:image/gif;base64,AAAA" 10 10)]))
      as (_ & _ & H).
    rewrite (H _ eq_refl). reflexivity.
Defined.

Lemma titleSchema_passes (v : FieldValue) :
  isSuccess (titleSchema v) = true <-> exists s, v = VString s /\ s <> "".
Proof.
  destruct v as [s|n|]; cbn.
  - destruct s as [|c rest]; cbn.
    + split; [discriminate|]. intros (s & E & Hs). injection E as <-. contradiction.
    + split; [intros _; exists (String c rest); split; [reflexivity|discriminate]
             | reflexivity].
  - split; [discriminate | intros (s & E & _); discriminate E].
  - split; [discriminate | intros (s & E & _); discriminate E].
Qed.

Lemma subtitleSchema_passes (v : FieldValue) :
  isSuccess (subtitleSchema v) = true <-> v = VUndefined \/ exists s, v = VString s.
Proof.
  destruct v as [s|n|]; cbn.
  - split; [intros _; right; exists s; reflexivity | reflexivity].
  - split; [discriminate|]. intros [E|(s & E)]; discriminate E.
  - split; [intros _; left; reflexivity | reflexivity].
Qed.

Lemma urlSchema_passes (isUrl : string -> bool) (v : FieldValue) :
  isSuccess (urlSchema isUrl v) = true <->
  exists u, v = VString u /\ isUrl u = true.
Proof.
  destruct v as [s|n|]; cbn.
  - destruct (isUrl s) eqn:E; cbn.
    + split; [intros _; exists s; auto | reflexivity].
    + split; [discriminate|]. intros (u & Eu & Hu). injection Eu as <-. congruence.
  - split; [discriminate | intros (u & E & _); discriminate E].
  - split; [discriminate | intros (u & E & _); discriminate E].
Qed.

(** X6.  The title passes validation exactly when it is a non-empty text, so
    every title that starts with a blank passes, a title made of blanks
    included; the subtitle passes when it is absent or any text, the empty
    one included. *)
Theorem title_and_subtitle_validation (v : FieldValue) :
  (isSuccess (titleSchema v) = true <-> exists s, v = VString s /\ s <> "") /\
  (v = VString "" -> titleSchema v = failure (too_small "Title is required")) /\
  (forall rest, isSuccess (titleSchema (VString (String " " rest))) = true) /\
  (isSuccess (subtitleSchema v) = true <-> v = VUndefined \/ exists s, v = VString s) /\
  isSuccess (subtitleSchema (VString "")) = true.
Proof.
  split; [|split; [|split; [|split]]].
  - destruct v as [s|n|]; cbn.
    + destruct s as [|c rest]; cbn.
      * split; [discriminate|]. intros (s & E & Hs). injection E as <-. contradiction.
      * split; [intros _; exists (String c rest); split; [reflexivity|discriminate]
               | reflexivity].
    + split; [discriminate | intros (s & E & _); discriminate E].
    + split; [discriminate | intros (s & E & _); discriminate E].
  - intros ->. reflexivity.
  - intro rest. reflexivity.
  - destruct v as [s|n|]; cbn.
    + split; [intros _; right; exists s; reflexivity | reflexivity].
    + split; [discriminate|]. intros [E|(s & E)]; discriminate E.
    + split; [intros _; left; reflexivity | reflexivity].
  - reflexivity.
Qed.

Lemma title_and_subtitle_validation_witness :
  titleSchema (VString "") = failure (too_small "Title is required").
Proof.
  destruct (title_and_subtitle_validation (VString "")) as (_ & H & _).
  apply H. reflexivity.
Defined.

Lemma permissive_dimension_passes (msg : string) (v : FieldValue) :
  isSuccess (z_transform Number (z_string_min 1 msg (z_string v))) = true <->
  exists s, v = VString s /\ s <> "".
Proof.
  destruct v as [s|n|]; cbn.
  - destruct s as [|c rest]; cbn.
    + split; [discriminate|]. intros (s & E & Hs). injection E as <-. contradiction.
    + split; [intros _; exists (String c rest); split; [reflexivity|discriminate]
             | reflexivity].
  - split; [discriminate | intros (s & E & _); discriminate E].
  - split; [discriminate | intros (s & E & _); discriminate E].
Qed.

Lemma strict_dimension_passes (msg : string) (v : FieldValue) :
  isSuccess (z_number_min 1 msg (z_number v)) = true <->
  exists q, v = VNumber (Finite q) /\ 1 <= q.
Proof.
  destruct v as [s|[q|]|]; cbn;
    try (split; [discriminate | intros (q' & Eq & _); discriminate Eq]).
  destruct (Qle_bool 1 q) eqn:E; cbn.
  - split; [intros _; exists q; split; [reflexivity | apply Qle_bool_iff, E]
           | reflexivity].
  - split; [discriminate|]. intros (q' & Eq & Hq). injection Eq as <-.
    apply Qle_bool_iff in Hq. congruence.
Qed.

(** X7.  In the permissive revision the width and height fields pass
    validation exactly when the value is a non-empty text, whatever the text
    is: "abc", "-5" and "0" pass.  The empty text fails with the message of
    the schema, and a value that is not a text fails as a value of the wrong
    type. *)
Theorem permissive_dimension_validation (v : FieldValue) :
  (isSuccess (Permissive.widthSchema v) = true <->
   exists s, v = VString s /\ s <> "") /\
  (isSuccess (Permissive.heightSchema v) = true <->
   exists s, v = VString s /\ s <> "") /\
  (v = VString "" ->
   issueOf (Permissive.widthSchema v)
   = Some (too_small "Width must be a positive number") /\
   issueOf (Permissive.heightSchema v)
   = Some (too_small "Height must be a positive number")) /\
  ((forall s, v <> VString s) ->
   issueOf (Permissive.widthSchema v) = Some invalid_type /\
   issueOf (Permissive.heightSchema v) = Some invalid_type) /\
  (isSuccess (Permissive.widthSchema (VString "abc")) = true /\
   isSuccess (Permissive.widthSchema (VString "-5")) = true /\
   isSuccess (Permissive.heightSchema (VString "0")) = true).
Proof.
  assert (H : forall msg,
            isSuccess (z_transform Number (z_string_min 1 msg (z_string v))) = true <->
            exists s, v = VString s /\ s <> "").
  { intro msg. destruct v as [s|n|]; cbn.
    - destruct s as [|c rest]; cbn.
      + split; [discriminate|]. intros (s & E & Hs). injection E as <-. contradiction.
      + split; [intros _; exists (String c rest); split; [reflexivity|discriminate]
               | reflexivity].
    - split; [discriminate | intros (s & E & _); discriminate E].
    - split; [discriminate | intros (s & E & _); discriminate E]. }
  split; [apply H|]. split; [apply H|].
  split; [intros ->; split; reflexivity|].
  split; [|repeat split; reflexivity].
  intro Hv. destruct v as [s|n|]; [exfalso; apply (Hv s); reflexivity | ..];
    split; reflexivity.
Qed.

Lemma permissive_dimension_validation_witness :
  isSuccess (Permissive.widthSchema (VString "1e3")) = true /\
  issueOf (Permissive.heightSchema (VNumber (Finite 344))) = Some invalid_type.
Proof.
  destruct (permissive_dimension_validation (VString "1e3")) as (H & _).
  destruct (permissive_dimension_validation (VNumber (Finite 344)))
    as (_ & _ & _ & H' & _).
  split.
  - apply H. exists "1e3". split; [reflexivity | discriminate].
  - apply H'. intros s E. discriminate E.
Defined.

(** *** What the steps keep *)

Lemma strict_runEffects_frame (prev cur : Editor.State) :
  let s := Strict.runEffects prev cur in
  Editor.imagePreview s = Editor.imagePreview cur /\
  Editor.generatedPoster s = Editor.generatedPoster cur /\
  Editor.watchWidth s = Editor.watchWidth cur /\
  Editor.watchHeight s = Editor.watchHeight cur.
Proof.
  unfold Strict.runEffects, Strict.positionEffect, Strict.geometryEffect.
  destruct (Strict.positionDepsChanged prev cur),
    (Strict.geometryDepsChanged prev cur),
    (Editor.generatedPoster cur) eqn:Eg, (Editor.imagePreview cur) eqn:Ei;
    cbn; rewrite ?Eg, ?Ei; auto.
Qed.

Lemma permissive_runEffects_frame (prev cur : Editor.State) :
  let s := Permissive.runEffects prev cur in
  Editor.imagePreview s = Editor.imagePreview cur /\
  Editor.generatedPoster s = Editor.generatedPoster cur /\
  Editor.watchWidth s = Editor.watchWidth cur /\
  Editor.watchHeight s = Editor.watchHeight cur /\
  Editor.titlePosition s = Editor.titlePosition cur /\
  Editor.subtitlePosition s = Editor.subtitlePosition cur /\
  Editor.qrCodePosition s = Editor.qrCodePosition cur /\
  Editor.imagePosition s = Editor.imagePosition cur.
Proof.
  unfold Permissive.runEffects, Permissive.geometryEffect.
  destruct (Permissive.geometryDepsChanged prev cur),
    (Editor.generatedPoster cur) eqn:Eg, (Editor.imagePreview cur) eqn:Ei;
    cbn; rewrite ?Eg, ?Ei; repeat split; reflexivity.
Qed.

(** The form cells after a step of the strict revision. *)
Lemma strict_step_cells (m : Measured) (ev : Strict.Event) (st : Editor.State) :
  let s := Strict.step m ev st in
  match ev with
  | Strict.Submit file =>
      Editor.imagePreview s = Some file /\ Editor.generatedPoster s = true /\
      Editor.watchWidth s = Editor.watchWidth st /\
      Editor.watchHeight s = Editor.watchHeight st
  | Strict.ChangeWidth w =>
      Editor.imagePreview s = Editor.imagePreview st /\
      Editor.generatedPoster s = Editor.generatedPoster st /\
      Editor.watchWidth s = w /\ Editor.watchHeight s = Editor.watchHeight st
  | Strict.ChangeHeight h =>
      Editor.imagePreview s = Editor.imagePreview st /\
      Editor.generatedPoster s = Editor.generatedPoster st /\
      Editor.watchWidth s = Editor.watchWidth st /\ Editor.watchHeight s = h
  | Strict.Pointer _ =>
      Editor.imagePreview s = Editor.imagePreview st /\
      Editor.generatedPoster s = Editor.generatedPoster st /\
      Editor.watchWidth s = Editor.watchWidth st /\
      Editor.watchHeight s = Editor.watchHeight st
  end.
Proof.
  unfold Strict.step.
  destruct (strict_runEffects_frame st (Strict.handle m ev st)) as (Hi & Hg & Hw & Hh).
  cbv zeta. rewrite Hi, Hg, Hw, Hh.
  destruct ev as [file|w|h|g]; cbn [Strict.handle].
  - repeat split; reflexivity.
  - repeat split; reflexivity.
  - repeat split; reflexivity.
  - apply gesture_frame.
Qed.

Lemma permissive_step_cells (m : Measured) (ev : Permissive.Event)
    (st : Editor.State) :
  let s := Permissive.step m ev st in
  match ev with
  | Permissive.Submit (Some file) =>
      Editor.imagePreview s = Some file /\ Editor.generatedPoster s = true
  | Permissive.Submit None =>
      Editor.imagePreview s = Editor.imagePreview st /\
      Editor.generatedPoster s = true
  | _ =>
      Editor.imagePreview s = Editor.imagePreview st /\
      Editor.generatedPoster s = Editor.generatedPoster st
  end.
Proof.
  unfold Permissive.step.
  destruct (permissive_runEffects_frame st (Permissive.handle m ev st))
    as (Hi & Hg & _).
  cbv zeta. rewrite Hi, Hg.
  destruct ev as [[file|]|w|h|g]; cbn [Permissive.handle Permissive.onSubmit];
    try (split; reflexivity).
  destruct (gesture_frame (Permissive.render m st) g st) as (Ei & Eg & _).
  split; assumption.
Qed.

Lemma legacy_step_cells (m : Measured) (ev : Legacy.Event) (s : Legacy.State) :
  let s' := Legacy.step m ev s in
  match ev with
  | Legacy.Submit result =>
      Legacy.imagePreview s' = result /\ Legacy.generatedPoster s' = true
  | _ =>
      Legacy.imagePreview s' = Legacy.imagePreview s /\
      Legacy.generatedPoster s' = Legacy.generatedPoster s
  end.
Proof.
  destruct s as [ip gp tp qp isz ww wh].
  destruct ev as [file|w|h|l p|l p|l r|l r]; cbn; try (split; reflexivity).
  - destruct gp, l; cbn; split; reflexivity.
  - destruct gp, l; cbn; split; reflexivity.
Qed.

Lemma strict_run_generated (m : Measured) (evs : list Strict.Event)
    (st : Editor.State) :
  Editor.generatedPoster st = true ->
  Editor.generatedPoster (Strict.run m evs st) = true.
Proof.
  revert st. induction evs as [|ev evs IH]; intros st Hg; [exact Hg|].
  cbn [Strict.run fold_left]. apply IH.
  pose proof (strict_step_cells m ev st) as H. cbv zeta in H.
  destruct ev; destruct H as (_ & H & _); rewrite H; auto.
Qed.

Lemma permissive_run_generated (m : Measured) (evs : list Permissive.Event)
    (st : Editor.State) :
  Editor.generatedPoster st = true ->
  Editor.generatedPoster (Permissive.run m evs st) = true.
Proof.
  revert st. induction evs as [|ev evs IH]; intros st Hg; [exact Hg|].
  cbn [Permissive.run fold_left]. apply IH.
  pose proof (permissive_step_cells m ev st) as H. cbv zeta in H.
  destruct ev as [[file|]|w|h|g]; destruct H as (_ & H); rewrite H; auto.
Qed.

Lemma legacy_run_generated (m : Measured) (evs : list Legacy.Event)
    (s : Legacy.State) :
  Legacy.generatedPoster s = true ->
  Legacy.generatedPoster (LegacyForm.run m evs s) = true.
Proof.
  revert s. induction evs as [|ev evs IH]; intros s Hg; [exact Hg|].
  cbn [LegacyForm.run fold_left]. apply IH.
  pose proof (legacy_step_cells m ev s) as H. cbv zeta in H.
  destruct ev; destruct H as (_ & H); rewrite H; auto.
Qed.

Lemma downloadPoster_mounted (rasterise : Surface -> Promise RasterImage)
    (node : Surface) :
  ~ In (toast "Error" "Could not generate poster. Please try again." destructive)
      (fst (downloadPoster rasterise (Some node))).
Proof.
  unfold downloadPoster. destruct (rasterise node); cbn;
    intros [E|[]]; discriminate E.
Qed.

(** X8.  Once a poster has been generated it stays generated: no sequence of
    submissions, field edits and pointer gestures sets the flag back, in any
    of the three revisions.  So the poster element stays mounted and the
    download button never again answers "Could not generate poster". *)
Theorem poster_stays_generated (m : Measured) (st : Editor.State)
    (s : Legacy.State) (evs : list Strict.Event) (evs1 : list Permissive.Event)
    (evs0 : list Legacy.Event) (rasterise : Surface -> Promise RasterImage) :
  let unavailable :=
    toast "Error" "Could not generate poster. Please try again." destructive in
  (Editor.generatedPoster st = true ->
   Editor.generatedPoster (Strict.run m evs st) = true /\
   Strict.posterRef m (Strict.run m evs st) <> None /\
   ~ In unavailable
       (fst (snd (Strict.clickDownload m rasterise (Strict.run m evs st)))) /\
   Editor.generatedPoster (Permissive.run m evs1 st) = true /\
   Permissive.posterRef m (Permissive.run m evs1 st) <> None /\
   ~ In unavailable
       (fst (snd (Permissive.clickDownload m rasterise (Permissive.run m evs1 st))))) /\
  (Legacy.generatedPoster s = true ->
   Legacy.generatedPoster (LegacyForm.run m evs0 s) = true /\
   Legacy.posterRef m (LegacyForm.run m evs0 s) <> None /\
   ~ In unavailable
       (fst (snd (Legacy.clickDownload m rasterise (LegacyForm.run m evs0 s))))).
Proof.
  intro unavailable. split.
  - intro Hg.
    pose proof (strict_run_generated m evs st Hg) as H1.
    pose proof (permissive_run_generated m evs1 st Hg) as H2.
    unfold Strict.clickDownload, Permissive.clickDownload,
      Strict.posterRef, Permissive.posterRef. cbn [fst snd].
    rewrite H1, H2.
    repeat split; try discriminate; apply downloadPoster_mounted.
  - intro Hg.
    pose proof (legacy_run_generated m evs0 s Hg) as H0.
    unfold Legacy.clickDownload, Legacy.posterRef. cbn [fst snd].
    rewrite H0.
    repeat split; try discriminate; apply downloadPoster_mounted.
Qed.

Lemma poster_stays_generated_witness :
  let m := {| titleSize := {| width := 300; height := 60 |};
              subtitleSize := {| width := 200; height := 36 |};
              qrCodeSize := {| width := 116; height := 116 |} |} in
  let pic := Editor.mkImageData "data:image/png;base64,AAAA" 2000 1000 in
  let st := Strict.step m (Strict.Submit pic) Strict.initialState in
  Editor.generatedPoster
    (Strict.run m [Strict.ChangeHeight 500;
                   Strict.Pointer (DragStop Title {| x := 3; y := 4 |})] st) = true.
Proof.
  intros m pic st.
  pose proof (poster_stays_generated m st Legacy.initialState
                [Strict.ChangeHeight 500;
                 Strict.Pointer (DragStop Title {| x := 3; y := 4 |})]
                [] [] (toPng (fun _ => true))) as H.
  cbv zeta in H. destruct H as (H & _).
  destruct (H eq_refl) as (H' & _). exact H'.
Defined.

Lemma strict_run_image_iff (m : Measured) (evs : list Strict.Event)
    (st : Editor.State) :
  (Editor.generatedPoster st = true <-> Editor.imagePreview st <> None) ->
  (Editor.generatedPoster (Strict.run m evs st) = true <->
   Editor.imagePreview (Strict.run m evs st) <> None).
Proof.
  revert st. induction evs as [|ev evs IH]; intros st H; [exact H|].
  cbn [Strict.run fold_left]. apply IH.
  pose proof (strict_step_cells m ev st) as C. cbv zeta in C.
  destruct ev; destruct C as (Ci & Cg & _); rewrite Ci, Cg;
    [split; [discriminate | reflexivity] | exact H ..].
Qed.

Lemma legacy_run_image (m : Measured) (evs : list Legacy.Event)
    (s : Legacy.State) :
  (Legacy.imagePreview s <> None -> Legacy.generatedPoster s = true) ->
  Legacy.imagePreview (LegacyForm.run m evs s) <> None ->
  Legacy.generatedPoster (LegacyForm.run m evs s) = true.
Proof.
  revert s. induction evs as [|ev evs IH]; intros s H; [exact H|].
  cbn [LegacyForm.run fold_left]. apply IH.
  pose proof (legacy_step_cells m ev s) as C. cbv zeta in C.
  destruct ev; destruct C as (Ci & Cg); rewrite ?Ci, Cg; auto.
Qed.

Lemma permissive_run_image (m : Measured) (evs : list Permissive.Event)
    (st : Editor.State) :
  (Editor.imagePreview st <> None -> Editor.generatedPoster st = true) ->
  Editor.imagePreview (Permissive.run m evs st) <> None ->
  Editor.generatedPoster (Permissive.run m evs st) = true.
Proof.
  revert st. induction evs as [|ev evs IH]; intros st H; [exact H|].
  cbn [Permissive.run fold_left]. apply IH.
  pose proof (permissive_step_cells m ev st) as C. cbv zeta in C.
  destruct ev as [[file|]|w|h|g]; destruct C as (Ci & Cg); rewrite ?Ci, Cg;
    auto.
Qed.

(** X9.  In every state the strict revision can reach from its initial
    state, a poster is generated exactly when a picture is loaded, so the
    image layer is never rendered with a null source.  In the permissive
    revision a loaded picture implies a generated poster, and the image layer
    is rendered only with a picture.  In the react-resizable revision a
    loaded picture implies a generated poster, but not the other way round:
    after a submission whose file could not be read the poster is generated
    and the image layer is rendered with a null source. *)
Theorem image_layer_has_picture (m : Measured) (evs : list Strict.Event)
    (evs1 : list Permissive.Event) (evs0 : list Legacy.Event) :
  let st := Strict.run m evs Strict.initialState in
  let st1 := Permissive.run m evs1 Permissive.initialState in
  let s := LegacyForm.run m evs0 Legacy.initialState in
  let unread := LegacyForm.run m (evs0 ++ [Legacy.Submit None]) Legacy.initialState in
  (Editor.generatedPoster st = true <-> Editor.imagePreview st <> None) /\
  (forall n, In n (Strict.render m st) -> layer n = Image ->
     Editor.imagePreview st <> None) /\
  (Editor.imagePreview st1 <> None -> Editor.generatedPoster st1 = true) /\
  (forall n, In n (Permissive.render m st1) -> layer n = Image ->
     Editor.imagePreview st1 <> None) /\
  (Legacy.imagePreview s <> None -> Legacy.generatedPoster s = true) /\
  (Legacy.generatedPoster unread = true /\ Legacy.imagePreview unread = None /\
   map layer (Legacy.render m unread) = [Image; Title; QRCode]).
Proof.
  intros st st1 s unread.
  assert (H : Editor.generatedPoster st = true <-> Editor.imagePreview st <> None).
  { apply strict_run_image_iff. cbn. split; [discriminate | congruence]. }
  split; [exact H|]. split.
  { intros n Hin _. apply H. unfold Strict.render in Hin.
    destruct (Editor.generatedPoster st); [reflexivity | destruct Hin]. }
  split.
  { apply permissive_run_image. cbn. congruence. }
  split.
  { intros n Hin Hl. unfold Permissive.render in Hin.
    destruct (Editor.generatedPoster st1); [|destruct Hin].
    destruct (Editor.imagePreview st1); [discriminate|].
    cbn in Hin. destruct Hin as [E|[E|[E|[]]]]; subst n; discriminate Hl. }
  split.
  { apply legacy_run_image. cbn. congruence. }
  assert (Eu : unread = Legacy.step m (Legacy.Submit None) s).
  { subst unread s. unfold LegacyForm.run. rewrite fold_left_app. reflexivity. }
  rewrite Eu. unfold Legacy.step, Legacy.onSubmit, Legacy.render.
  repeat split; reflexivity.
Qed.

Lemma image_layer_has_picture_witness :
  let m := {| titleSize := {| width := 300; height := 60 |};
              subtitleSize := {| width := 200; height := 36 |};
              qrCodeSize := {| width := 116; height := 116 |} |} in
  let pic := Editor.mkImageData "data:image/png;base64,AAAA" 2000 1000 in
  Editor.imagePreview
    (Strict.run m [Strict.Submit pic; Strict.ChangeWidth 500;
                   Strict.Pointer (DragStop Image {| x := 5; y := 5 |})]
       Strict.initialState) <> None.
Proof.
  intros m pic.
  pose proof (image_layer_has_picture m
                [Strict.Submit pic; Strict.ChangeWidth 500;
                 Strict.Pointer (DragStop Image {| x := 5; y := 5 |})]
                [] []) as H.
  cbv zeta in H. destruct H as (H & _).
  apply H. reflexivity.
Defined.

(** *** Layer positions *)

Lemma geometryEffect_position (seen st : Editor.State) (l : Layer) :
  Editor.layerPosition l (Strict.geometryEffect seen st) = Editor.layerPosition l st.
Proof.
  unfold Strict.geometryEffect. destruct (Editor.imagePreview seen);
    destruct l; reflexivity.
Qed.

Lemma strict_runEffects_position (prev cur : Editor.State) (l : Layer) :
  Editor.layerPosition l (Strict.runEffects prev cur)
  = if Strict.positionDepsChanged prev cur && Editor.generatedPoster cur
    then resetPosition (Editor.watchHeight cur) l
    else Editor.layerPosition l cur.
Proof.
  unfold Strict.runEffects.
  assert (H : Editor.layerPosition l
                (if Strict.positionDepsChanged prev cur
                 then Strict.positionEffect cur cur else cur)
              = if Strict.positionDepsChanged prev cur && Editor.generatedPoster cur
                then resetPosition (Editor.watchHeight cur) l
                else Editor.layerPosition l cur).
  { destruct (Strict.positionDepsChanged prev cur); cbn [andb]; [|reflexivity].
    unfold Strict.positionEffect. destruct (Editor.generatedPoster cur);
      destruct l; reflexivity. }
  destruct (Strict.geometryDepsChanged prev cur);
    [rewrite geometryEffect_position|]; exact H.
Qed.

(** X10.  In the strict revision, changing the canvas height of a generated
    poster to a different value puts the four layers back to their default
    positions, the QR code at (20, new height - 120), and so discards every
    drag made before.  Setting the height to the value it has, changing the
    canvas width and submitting the form again leave the positions as they
    are, and before a poster is generated a height change moves nothing. *)
Theorem strict_height_change_resets_positions (m : Measured)
    (st : Editor.State) (l : Layer) :
  (Editor.generatedPoster st = true ->
   (forall h, ~ h == Editor.watchHeight st ->
      Editor.layerPosition l (Strict.step m (Strict.ChangeHeight h) st)
      = resetPosition h l) /\
   (forall file,
      Editor.layerPosition l (Strict.step m (Strict.Submit file) st)
      = Editor.layerPosition l st)) /\
  (forall h, h == Editor.watchHeight st ->
     Editor.layerPosition l (Strict.step m (Strict.ChangeHeight h) st)
     = Editor.layerPosition l st) /\
  (forall w,
     Editor.layerPosition l (Strict.step m (Strict.ChangeWidth w) st)
     = Editor.layerPosition l st) /\
  (Editor.generatedPoster st = false ->
   forall h,
     Editor.layerPosition l (Strict.step m (Strict.ChangeHeight h) st)
     = Editor.layerPosition l st).
Proof.
  split; [|split; [|split]].
  - intro Hg. split.
    + intros h Hh. unfold Strict.step. rewrite strict_runEffects_position.
      unfold Strict.positionDepsChanged, Strict.handle.
      cbn [Editor.setWatchHeight Editor.generatedPoster Editor.watchHeight].
      rewrite Hg, Qeq_bool_false by (intro E; apply Hh; symmetry; exact E).
      reflexivity.
    + intro file. unfold Strict.step. rewrite strict_runEffects_position.
      unfold Strict.positionDepsChanged, Strict.handle, Strict.onSubmit.
      cbn [Editor.setGeneratedPoster Editor.setImagePreview Editor.setImageSize
           Editor.generatedPoster Editor.watchHeight].
      rewrite Hg, Qeq_bool_refl. cbn. destruct l; reflexivity.
  - intros h Hh. unfold Strict.step. rewrite strict_runEffects_position.
    unfold Strict.positionDepsChanged, Strict.handle.
    cbn [Editor.setWatchHeight Editor.generatedPoster Editor.watchHeight].
    rewrite Bool.eqb_reflx, Qeq_bool_true by (symmetry; exact Hh).
    cbn. destruct l; reflexivity.
  - intro w. unfold Strict.step. rewrite strict_runEffects_position.
    unfold Strict.positionDepsChanged, Strict.handle.
    cbn [Editor.setWatchWidth Editor.generatedPoster Editor.watchHeight].
    rewrite Bool.eqb_reflx, Qeq_bool_refl. cbn. destruct l; reflexivity.
  - intros Hg h. unfold Strict.step. rewrite strict_runEffects_position.
    unfold Strict.handle.
    cbn [Editor.setWatchHeight Editor.generatedPoster].
    rewrite Hg, andb_false_r. destruct l; reflexivity.
Qed.

Lemma strict_height_change_resets_positions_witness :
  let m := {| titleSize := {| width := 300; height := 60 |};
              subtitleSize := {| width := 200; height := 36 |};
              qrCodeSize := {| width := 116; height := 116 |} |} in
  let pic := Editor.mkImageData "data:image/png;base64,AAAA" 2000 1000 in
  let st := Strict.run m [Strict.Submit pic;
                          Strict.Pointer (DragStop QRCode {| x := 300; y := 400 |})]
              Strict.initialState in
  Editor.qrCodePosition st = {| x := 300; y := 400 |} /\
  Editor.qrCodePosition (Strict.step m (Strict.ChangeHeight 1000) st)
  = {| x := 20; y := 1000 - 120 |}.
Proof.
  intros m pic st. split; [reflexivity|].
  pose proof (strict_height_change_resets_positions m st QRCode) as H.
  destruct H as (H & _). destruct (H eq_refl) as (H' & _).
  apply (H' 1000). vm_compute. discriminate.
Defined.

Lemma permissive_step_position (m : Measured) (ev : Permissive.Event)
    (st : Editor.State) (l : Layer) :
  isDragStop ev = false ->
  Editor.layerPosition l (Permissive.step m ev st) = Editor.layerPosition l st.
Proof.
  intro Hd. unfold Permissive.step.
  destruct (permissive_runEffects_frame st (Permissive.handle m ev st))
    as (_ & _ & _ & _ & Ht & Hs & Hq & Hi).
  cbv zeta in Ht, Hs, Hq, Hi.
  transitivity (Editor.layerPosition l (Permissive.handle m ev st)).
  { destruct l; cbn; assumption. }
  destruct ev as [[file|]|w|h|g]; cbn [Permissive.handle Permissive.onSubmit];
    try (destruct l; reflexivity).
  destruct g as [k p|k p|k d|k d]; try discriminate Hd; try reflexivity.
  apply gesture_resize_frame.
Qed.

(** X11.  In the permissive revision only a drag commit moves a layer: over
    any sequence of submissions, width and height changes and resize
    gestures every layer keeps its position. *)
Theorem permissive_positions_survive (m : Measured)
    (evs : list Permissive.Event) (st : Editor.State) (l : Layer) :
  forallb (fun ev => negb (isDragStop ev)) evs = true ->
  Editor.layerPosition l (Permissive.run m evs st) = Editor.layerPosition l st.
Proof.
  revert st. induction evs as [|ev evs IH]; intros st H; [reflexivity|].
  cbn [forallb] in H. apply andb_true_iff in H as [Hev Hrest].
  cbn [Permissive.run fold_left].
  change (Editor.layerPosition l (Permissive.run m evs (Permissive.step m ev st))
          = Editor.layerPosition l st).
  rewrite (IH _ Hrest). apply permissive_step_position.
  apply negb_true_iff. exact Hev.
Qed.

Lemma permissive_positions_survive_witness :
  let m := {| titleSize := {| width := 300; height := 60 |};
              subtitleSize := {| width := 200; height := 36 |};
              qrCodeSize := {| width := 116; height := 116 |} |} in
  let pic := Editor.mkImageData "data:image/png;base64,AAAA" 2000 1000 in
  Editor.qrCodePosition
    (Permissive.run m [Permissive.Submit (Some pic); Permissive.ChangeHeight 900;
                       Permissive.Pointer (ResizeStop Image {| width := 5; height := 5 |})]
       Permissive.initialState)
  = {| x := 20; y := 140 |}.
Proof.
  intros m pic.
  apply (permissive_positions_survive m _ Permissive.initialState QRCode).
  reflexivity.
Defined.

(** *** The image size over a run *)







Lemma legacy_step_size (m : Measured) (ev : Legacy.Event) (s : Legacy.State) :
  isResizeFrame ev = false ->
  Legacy.imageSize (Legacy.step m ev s) = Legacy.imageSize s.
Proof.
  intro Hr. destruct s as [ip gp tp qp isz ww wh].
  destruct ev as [file|w|h|l p|l p|l r|l r]; try discriminate Hr;
    try reflexivity.
  destruct gp, l; reflexivity.
Qed.

(** X13.  The react-resizable revision never fits the image to the canvas:
    over any sequence of events without a resize frame (submissions of any
    picture, canvas changes, drags) the image keeps the size it had, 800x600
    from the start, whatever the picture and the canvas are. *)
Theorem legacy_image_size_only_by_resize (m : Measured)
    (evs : list Legacy.Event) (s : Legacy.State) :
  forallb (fun ev => negb (isResizeFrame ev)) evs = true ->
  Legacy.imageSize (LegacyForm.run m evs s) = Legacy.imageSize s /\
  (s = Legacy.initialState ->
   Legacy.imageSize (LegacyForm.run m evs s) = {| width := 800; height := 600 |}).
Proof.
  intro H.
  assert (E : Legacy.imageSize (LegacyForm.run m evs s) = Legacy.imageSize s).
  { revert s. induction evs as [|ev evs IH]; intro s; [reflexivity|].
    cbn [forallb] in H. apply andb_true_iff in H as [Hev Hrest].
    cbn [LegacyForm.run fold_left].
    change (Legacy.imageSize (LegacyForm.run m evs (Legacy.step m ev s))
            = Legacy.imageSize s).
    rewrite (IH Hrest). apply legacy_step_size, negb_true_iff, Hev. }
  split; [exact E|]. intro Es. rewrite E, Es. reflexivity.
Qed.

Lemma legacy_image_size_only_by_resize_witness :
  let m := {| titleSize := {| width := 300; height := 60 |};
              subtitleSize := {| width := 200; height := 36 |};
              qrCodeSize := {| width := 100; height := 100 |} |} in
  let s := LegacyForm.run m [Legacy.ChangeWidth 400;
                             Legacy.Submit (Some "data:image/png;base64,AAAA");
                             Legacy.DragEnd Title {| x := 10; y := 10 |}]
             Legacy.initialState in
  Legacy.imageSize s = {| width := 800; height := 600 |} /\
  Legacy.watchWidth s = 400.
Proof.
  intros m s. split; [|reflexivity].
  destruct (legacy_image_size_only_by_resize m
              [Legacy.ChangeWidth 400; Legacy.Submit (Some "data:image/png;base64,AAAA");
               Legacy.DragEnd Title {| x := 10; y := 10 |}]
              Legacy.initialState eq_refl) as (_ & H).
  apply H. reflexivity.
Defined.

(** *** How commits compose *)

Lemma onStop_overwrites (l : Layer) (a b : Position) (st : Editor.State) :
  Editor.onStop l b (Editor.onStop l a st) = Editor.onStop l b st.
Proof. destruct l; reflexivity. Qed.

Lemma onStop_commutes (l k : Layer) (a b : Position) (st : Editor.State) :
  l <> k ->
  Editor.onStop k b (Editor.onStop l a st) = Editor.onStop l a (Editor.onStop k b st).
Proof.
  intro H. destruct l, k; try reflexivity; exfalso; apply H; reflexivity.
Qed.

Lemma strict_dragStop_after (m : Measured) (l k : Layer) (a p : Position)
    (st : Editor.State) :
  Editor.generatedPoster st = true ->
  Strict.step m (Strict.Pointer (DragStop k p)) (Editor.onStop l a st)
  = Editor.onStop k
      (boundToParent (Editor.canvas st) (origin (Strict.render m st) k)
         (Editor.layerBox m k st) p)
      (Editor.onStop l a st).
Proof.
  intro Hg.
  destruct (onStop_frame l a st) as (_ & Hcv & Hg' & _ & _).
  destruct (onStop_origin m l k a st) as (Ho & _).
  rewrite strict_dragStop by (rewrite Hg'; exact Hg).
  rewrite Hcv, Ho, onStop_layerBox. reflexivity.
Qed.

(** X14.  In the strict revision drag commits store absolute positions: of
    two drag commits on the same layer only the last one counts, and drag
    commits on different layers can be made in either order with the same
    result. *)
Theorem drag_commits_compose (m : Measured) (st : Editor.State)
    (l k : Layer) (p q : Position) :
  Strict.step m (Strict.Pointer (DragStop l q))
    (Strict.step m (Strict.Pointer (DragStop l p)) st)
  = Strict.step m (Strict.Pointer (DragStop l q)) st /\
  (l <> k ->
   Strict.step m (Strict.Pointer (DragStop k q))
     (Strict.step m (Strict.Pointer (DragStop l p)) st)
   = Strict.step m (Strict.Pointer (DragStop l p))
       (Strict.step m (Strict.Pointer (DragStop k q)) st)).
Proof.
  destruct (Editor.generatedPoster st) eqn:Hg.
  - split.
    + rewrite (strict_dragStop m l p st Hg), (strict_dragStop m l q st Hg).
      rewrite (strict_dragStop_after m l l _ q st Hg). apply onStop_overwrites.
    + intro Hlk.
      rewrite (strict_dragStop m l p st Hg), (strict_dragStop m k q st Hg).
      rewrite (strict_dragStop_after m l k _ q st Hg),
        (strict_dragStop_after m k l _ p st Hg).
      apply onStop_commutes, Hlk.
  - split; [|intros _];
      rewrite !(strict_dragStop_unmounted m _ _ st Hg); reflexivity.
Qed.

Lemma drag_commits_compose_witness :
  let m := {| titleSize := {| width := 300; height := 60 |};
              subtitleSize := {| width := 200; height := 36 |};
              qrCodeSize := {| width := 116; height := 116 |} |} in
  let pic := Editor.mkImageData "data:image/png;base64,AAAA" 2000 1000 in
  let st := Strict.step m (Strict.Submit pic) Strict.initialState in
  Strict.run m [Strict.Pointer (DragStop Title {| x := 1; y := 2 |});
                Strict.Pointer (DragStop QRCode {| x := 3; y := 4 |})] st
  = Strict.run m [Strict.Pointer (DragStop QRCode {| x := 3; y := 4 |});
                  Strict.Pointer (DragStop Title {| x := 1; y := 2 |})] st.
Proof.
  intros m pic st.
  destruct (drag_commits_compose m st Title QRCode {| x := 1; y := 2 |}
              {| x := 3; y := 4 |}) as (_ & H).
  unfold Strict.run, fold_left. apply H. discriminate.
Defined.

(** *** Feedback of the download button *)


(** *** Submitting the form *)

Lemma clean_iff (e : Form.Errors) :
  Form.clean e = true <->
  Form.titleError e = None /\ Form.subtitleError e = None /\
  Form.urlError e = None /\ Form.imageError e = None /\
  Form.widthError e = None /\ Form.heightError e = None.
Proof.
  unfold Form.clean. rewrite !andb_true_iff, !isNone_true. tauto.
Qed.

Lemma hd_error_none {A : Type} (l : list A) : hd_error l = None <-> l = [].
Proof. destruct l; cbn; split; congruence. Qed.

Lemma strict_form_clean (isUrl : string -> bool) (v : Form.Values) :
  Form.clean (StrictForm.formSchema isUrl v) = true <->
  (exists t, Form.title v = VString t /\ t <> "") /\
  (Form.subtitle v = VUndefined \/ exists s, Form.subtitle v = VString s) /\
  (exists u, Form.url v = VString u /\ isUrl u = true) /\
  (exists f, Form.image v = Some [f] /\ (Upload.size f <= 5000000)%N /\
             In (Upload.type f) ["image/jpeg"; "image/jpg"; "image/png"; "image/webp"]) /\
  (exists w, Form.width v = VNumber (Finite w) /\ 1 <= w) /\
  (exists h, Form.height v = VNumber (Finite h) /\ 1 <= h).
Proof.
  rewrite clean_iff. unfold StrictForm.formSchema.
  cbn [Form.titleError Form.subtitleError Form.urlError Form.imageError
       Form.widthError Form.heightError].
  rewrite !issueOf_none, hd_error_none.
  rewrite titleSchema_passes, subtitleSchema_passes, urlSchema_passes,
    imageSchema_passes.
  unfold Strict.widthSchema, Strict.heightSchema.
  rewrite !strict_dimension_passes. tauto.
Qed.

Lemma permissive_form_clean (isUrl : string -> bool) (v : Form.Values) :
  Form.clean (PermissiveForm.formSchema isUrl v) = true <->
  (exists t, Form.title v = VString t /\ t <> "") /\
  (Form.subtitle v = VUndefined \/ exists s, Form.subtitle v = VString s) /\
  (exists u, Form.url v = VString u /\ isUrl u = true) /\
  (exists w, Form.width v = VString w /\ w <> "") /\
  (exists h, Form.height v = VString h /\ h <> "").
Proof.
  rewrite clean_iff. unfold PermissiveForm.formSchema.
  cbn [Form.titleError Form.subtitleError Form.urlError Form.imageError
       Form.widthError Form.heightError].
  rewrite !issueOf_none.
  rewrite titleSchema_passes, subtitleSchema_passes, urlSchema_passes.
  unfold Permissive.widthSchema, Permissive.heightSchema.
  rewrite !permissive_dimension_passes. tauto.
Qed.

(** X17.  In the strict revision a submission generates the poster exactly
    when the title is a non-empty text, the subtitle is absent or a text, the
    URL is a text the URL parser accepts, exactly one file of an accepted
    type and of at most 5,000,000 bytes is picked and the browser decodes it
    as a picture, and the width and the height are numbers that are at least
    1; a width or height given as text is rejected.  A submission that does
    not generate the poster changes nothing; in particular a file that passes
    validation and cannot be decoded leaves the page as it is. *)
Theorem strict_submission_generates_iff (isUrl : string -> bool)
    (decodes : Upload.File -> bool) (m : Measured) (v : Form.Values)
    (st : Editor.State) :
  Editor.generatedPoster st = false ->
  let st' := StrictForm.handleSubmit isUrl decodes m v st in
  (Editor.generatedPoster st' = true <->
   (exists t, Form.title v = VString t /\ t <> "") /\
   (Form.subtitle v = VUndefined \/ exists s, Form.subtitle v = VString s) /\
   (exists u, Form.url v = VString u /\ isUrl u = true) /\
   (exists f, Form.image v = Some [f] /\ (Upload.size f <= 5000000)%N /\
              In (Upload.type f) ["image/jpeg"; "image/jpg"; "image/png"; "image/webp"] /\
              decodes f = true) /\
   (exists w, Form.width v = VNumber (Finite w) /\ 1 <= w) /\
   (exists h, Form.height v = VNumber (Finite h) /\ 1 <= h)) /\
  (Editor.generatedPoster st' = false -> st' = st) /\
  (forall s, Form.width v = VString s \/ Form.height v = VString s -> st' = st) /\
  (forall f rest, Form.image v = Some (f :: rest) -> decodes f = false -> st' = st) /\
  (Editor.generatedPoster st' = true ->
   exists f, Form.image v = Some [f] /\
             Editor.imagePreview st' = Some (Upload.content f) /\
             Editor.imageSize st'
             = imageGeometry (Editor.naturalWidth (Upload.content f))
                 (Editor.naturalHeight (Upload.content f))
                 (Editor.watchWidth st) (Editor.watchHeight st)).
Proof.
  intros Hg st'. subst st'. unfold StrictForm.handleSubmit.
  pose proof (strict_form_clean isUrl v) as Hc.
  destruct (Form.clean (StrictForm.formSchema isUrl v)) eqn:Ec.
  - destruct (proj1 Hc eq_refl)
      as (Ht & Hs & Hu & (f & Ef & Hsz & Hty) & Hw & Hh).
    rewrite Ef.
    destruct (decodes f) eqn:Ed.
    + pose proof (strict_step_cells m (Strict.Submit (Upload.content f)) st) as C.
      cbv zeta in C. destruct C as (Ci & Cg & _).
      split.
      { split; [intros _ | intros _; exact Cg].
        split; [exact Ht|]. split; [exact Hs|]. split; [exact Hu|].
        split; [exists f; auto|]. split; assumption. }
      split; [intro H; congruence|].
      split.
      { intros s [E|E]; destruct Hw as (w & Ew & _), Hh as (h & Eh & _);
          congruence. }
      split.
      { intros f' rest E Hd. injection E as <- _. congruence. }
      intros _. exists f. split; [reflexivity|]. split; [exact Ci|].
      apply strict_step_submit_size.
    + split.
      { split; [intro H; congruence|].
        intros (_ & _ & _ & (f' & Ef' & _ & _ & Hd) & _).
        injection Ef' as <-. congruence. }
      split; [reflexivity|]. split; [reflexivity|]. split; [reflexivity|].
      intro H. congruence.
  - split.
    { split; [intro H; congruence|].
      intros (Ht & Hs & Hu & (f & Ef & Hsz & Hty & _) & Hw & Hh).
      assert (E : false = true).
      { apply Hc. split; [exact Ht|]. split; [exact Hs|]. split; [exact Hu|].
        split; [exists f; auto|]. split; assumption. }
      discriminate E. }
    split; [reflexivity|]. split; [reflexivity|]. split; [reflexivity|].
    intro H. congruence.
Qed.

Lemma strict_submission_generates_iff_witness :
  let m := {| titleSize := {| width := 300; height := 60 |};
              subtitleSize := {| width := 200; height := 36 |};
              qrCodeSize := {| width := 116; height := 116 |} |} in
  let pic := Editor.mkImageData "data:image/png;base64,AAAA" 2000 1000 in
  let v := {| Form.title := VString "Issue 12"; Form.subtitle := VString "";
              Form.url := VString "https://example.org/";
              Form.image := Some [Upload.mkFile 120000 "image/png" pic];
              Form.width := VNumber (Finite 1080);
              Form.height := VNumber (Finite 1920) |} in
  StrictForm.handleSubmit (fun _ => true) (fun _ => false) m v Strict.initialState
  = Strict.initialState /\
  Editor.generatedPoster
    (StrictForm.handleSubmit (fun _ => true) (fun _ => true) m v Strict.initialState)
  = true.
Proof.
  intros m pic v.
  pose proof (strict_submission_generates_iff (fun _ => true) (fun _ => false) m v
                Strict.initialState eq_refl) as H.
  pose proof (strict_submission_generates_iff (fun _ => true) (fun _ => true) m v
                Strict.initialState eq_refl) as H'.
  cbv zeta in H, H'. destruct H as (_ & _ & _ & H & _). destruct H' as (H' & _).
  split.
  - apply (H (Upload.mkFile 120000 "image/png" pic) []); reflexivity.
  - apply H'.
    split; [exists "Issue 12"; split; [reflexivity | discriminate]|].
    split; [right; exists ""; reflexivity|].
    split; [exists "https://example.org/"; split; reflexivity|].
    split.
    { exists (Upload.mkFile 120000 "image/png" pic).
      split; [reflexivity|]. split; [vm_compute; discriminate|].
      split; [right; right; left; reflexivity | reflexivity]. }
    split; [exists 1080 | exists 1920]; split; try reflexivity; discriminate.
Defined.

(** X18.  In the permissive revision a submission generates the poster
    exactly when the title is a non-empty text, the subtitle is absent or a
    text, the URL is a text the URL parser accepts, the width and height are
    non-empty texts and the image field is not null; no file needs to be
    picked, and with an empty list of files the poster is generated with the
    picture cell left as it was.  A submission that does not generate the
    poster changes nothing. *)
Theorem permissive_submission_generates_iff (isUrl : string -> bool)
    (m : Measured) (v : Form.Values) (st : Editor.State) :
  Editor.generatedPoster st = false ->
  let st' := PermissiveForm.handleSubmit isUrl m v st in
  (Editor.generatedPoster st' = true <->
   (exists t, Form.title v = VString t /\ t <> "") /\
   (Form.subtitle v = VUndefined \/ exists s, Form.subtitle v = VString s) /\
   (exists u, Form.url v = VString u /\ isUrl u = true) /\
   (exists w, Form.width v = VString w /\ w <> "") /\
   (exists h, Form.height v = VString h /\ h <> "") /\
   Form.image v <> None) /\
  (Editor.generatedPoster st' = false -> st' = st) /\
  (Form.image v = Some [] ->
   Editor.imagePreview st' = Editor.imagePreview st).
Proof.
  intros Hg st'. subst st'. unfold PermissiveForm.handleSubmit.
  pose proof (permissive_form_clean isUrl v) as Hc.
  destruct (Form.clean (PermissiveForm.formSchema isUrl v)) eqn:Ec.
  - destruct (proj1 Hc eq_refl) as (Ht & Hs & Hu & Hw & Hh).
    destruct (Form.image v) as [[|f rest]|] eqn:Ei.
    + pose proof (permissive_step_cells m (Permissive.Submit None) st) as C.
      cbv zeta in C. destruct C as (Ci & Cg).
      split; [split; [intros _; repeat (split; [assumption|]); discriminate
                     | intros _; exact Cg]|].
      split; [intro H; congruence | intros _; exact Ci].
    + pose proof (permissive_step_cells m
                    (Permissive.Submit (Some (Upload.content f))) st) as C.
      cbv zeta in C. destruct C as (_ & Cg).
      split; [split; [intros _; repeat (split; [assumption|]); discriminate
                     | intros _; exact Cg]|].
      split; [intro H; congruence | discriminate].
    + split; [split; [intro H; congruence
                     | intros (_ & _ & _ & _ & _ & H); contradiction]|].
      split; [reflexivity | discriminate].
  - split; [split; [intro H; congruence|]|].
    + intros (Ht & Hs & Hu & Hw & Hh & _).
      assert (E : false = true) by (apply Hc; auto). discriminate E.
    + split; reflexivity.
Qed.

Lemma permissive_submission_generates_iff_witness :
  let m := {| titleSize := {| width := 300; height := 60 |};
              subtitleSize := {| width := 200; height := 36 |};
              qrCodeSize := {| width := 116; height := 116 |} |} in
  let v := {| Form.title := VString "00"; Form.subtitle := VUndefined;
              Form.url := VString "https://sharegpt-one.vercel.app/";
              Form.image := Some [];
              Form.width := VString "abc"; Form.height := VString "-5" |} in
  Editor.generatedPoster
    (PermissiveForm.handleSubmit (fun _ => true) m v Permissive.initialState)
  = true.
Proof.
  intros m v.
  pose proof (permissive_submission_generates_iff (fun _ => true) m v
                Permissive.initialState eq_refl) as H.
  cbv zeta in H. destruct H as (H & _).
  apply H.
  split; [exists "00"; split; [reflexivity | discriminate]|].
  split; [left; reflexivity|].
  split; [exists "https://sharegpt-one.vercel.app/"; split; reflexivity|].
  split; [exists "abc"; split; [reflexivity | discriminate]|].
  split; [exists "-5"; split; [reflexivity | discriminate] | discriminate].
Defined.

(** X19.  In the permissive revision the image size is refitted on a
    submission only when the picture changes: submitting a picture with the
    data URL of the loaded one, or submitting without a file, keeps the size
    of a generated poster, a manual resize included, while submitting a
    picture with another data URL replaces the size by the fitted geometry
    of the new picture. *)
Theorem permissive_resubmission_keeps_size (m : Measured) (st : Editor.State)
    (old file : Editor.ImageData) :
  Editor.generatedPoster st = true ->
  Editor.imagePreview st = Some old ->
  (Editor.dataUrl file = Editor.dataUrl old ->
   Editor.imageSize (Permissive.step m (Permissive.Submit (Some file)) st)
   = Editor.imageSize st) /\
  Editor.imageSize (Permissive.step m (Permissive.Submit None) st)
  = Editor.imageSize st /\
  (Editor.dataUrl file <> Editor.dataUrl old ->
   Editor.imageSize (Permissive.step m (Permissive.Submit (Some file)) st)
   = imageGeometry (Editor.naturalWidth file) (Editor.naturalHeight file)
       (Editor.watchWidth st) (Editor.watchHeight st)).
Proof.
  intros Hg Hi.
  unfold Permissive.step, Permissive.handle, Permissive.onSubmit,
    Permissive.runEffects, Permissive.geometryDepsChanged.
  cbn [Editor.setGeneratedPoster Editor.setImagePreview Editor.generatedPoster
       Editor.imagePreview Editor.watchWidth Editor.watchHeight].
  rewrite Hg, Hi, !Qeq_bool_refl. cbn [Bool.eqb negb orb Editor.sameImage].
  split; [|split].
  - intro E. rewrite <- E, String.eqb_refl. reflexivity.
  - rewrite String.eqb_refl. reflexivity.
  - intro E.
    assert (Eb : String.eqb (Editor.dataUrl old) (Editor.dataUrl file) = false).
    { apply String.eqb_neq. intro E'. apply E. symmetry. exact E'. }
    rewrite Eb. cbn [negb orb]. unfold Permissive.geometryEffect. reflexivity.
Qed.

Lemma permissive_resubmission_keeps_size_witness :
  let m := {| titleSize := {| width := 300; height := 60 |};
              subtitleSize := {| width := 200; height := 36 |};
              qrCodeSize := {| width := 116; height := 116 |} |} in
  let pic := Editor.mkImageData "data:image/png;base64,AAAA" 2000 1000 in
  let st := Permissive.run m [Permissive.Submit (Some pic);
                              Permissive.Pointer (ResizeStop Image {| width := -44; height := -22 |})]
              Permissive.initialState in
  Editor.imageSize (Permissive.step m (Permissive.Submit (Some pic)) st)
  = Editor.imageSize st.
Proof.
  intros m pic st.
  destruct (permissive_resubmission_keeps_size m st pic pic eq_refl eq_refl)
    as (H & _).
  apply H. reflexivity.
Defined.

Lemma legacy_dimension_passes (msg : string) (v : FieldValue) :
  isSuccess (z_transform Number (z_regex matchesDigits msg (z_string v))) = true <->
  exists s, v = VString s /\ matchesDigits s = true.
Proof.
  destruct v as [s|n|]; cbn.
  - destruct (matchesDigits s) eqn:E; cbn.
    + split; [intros _; exists s; auto | reflexivity].
    + split; [discriminate|]. intros (s' & Es & Hs). injection Es as <-. congruence.
  - split; [discriminate | intros (s' & Es & _); discriminate Es].
  - split; [discriminate | intros (s' & Es & _); discriminate Es].
Qed.

Lemma legacy_form_clean (isUrl : string -> bool) (v : Form.Values) :
  Form.clean (LegacyForm.formSchema isUrl v) = true <->
  (exists t, Form.title v = VString t /\ t <> "") /\
  (exists u, Form.url v = VString u /\ isUrl u = true) /\
  (exists f, Form.image v = Some [f] /\ (Upload.size f <= 5000000)%N /\
             In (Upload.type f) ["image/jpeg"; "image/jpg"; "image/png"; "image/webp"]) /\
  (exists w, Form.width v = VString w /\ matchesDigits w = true) /\
  (exists h, Form.height v = VString h /\ matchesDigits h = true).
Proof.
  rewrite clean_iff. unfold LegacyForm.formSchema.
  cbn [Form.titleError Form.subtitleError Form.urlError Form.imageError
       Form.widthError Form.heightError].
  rewrite !issueOf_none, hd_error_none.
  rewrite titleSchema_passes, urlSchema_passes, imageSchema_passes.
  unfold Legacy.widthSchema, Legacy.heightSchema.
  rewrite !legacy_dimension_passes. tauto.
Qed.

(** X20.  In the react-resizable revision a submission generates the poster
    exactly when the title is a non-empty text, the URL is a text the URL
    parser accepts, exactly one file of an accepted type and of at most
    5,000,000 bytes is picked, and the width and the height are texts of
    decimal digits; the subtitle is not looked at, and neither is the outcome
    of reading the file.  The submission stores what the reader delivers, the
    data URL of the file or null when the file could not be read, and leaves
    the image size and the positions of the title and the QR code as they
    were; a submission that does not generate the poster changes nothing. *)
Theorem legacy_submission_generates_iff (isUrl : string -> bool)
    (reads : Upload.File -> bool) (m : Measured) (v : Form.Values)
    (s : Legacy.State) :
  Legacy.generatedPoster s = false ->
  let s' := LegacyForm.handleSubmit isUrl reads m v s in
  (Legacy.generatedPoster s' = true <->
   (exists t, Form.title v = VString t /\ t <> "") /\
   (exists u, Form.url v = VString u /\ isUrl u = true) /\
   (exists f, Form.image v = Some [f] /\ (Upload.size f <= 5000000)%N /\
              In (Upload.type f) ["image/jpeg"; "image/jpg"; "image/png"; "image/webp"]) /\
   (exists w, Form.width v = VString w /\ matchesDigits w = true) /\
   (exists h, Form.height v = VString h /\ matchesDigits h = true)) /\
  (Legacy.generatedPoster s' = false -> s' = s) /\
  (Legacy.generatedPoster s' = true ->
   (exists f, Form.image v = Some [f] /\
              (reads f = true ->
               Legacy.imagePreview s' = Some (Editor.dataUrl (Upload.content f))) /\
              (reads f = false -> Legacy.imagePreview s' = None)) /\
   Legacy.imageSize s' = Legacy.imageSize s /\
   Legacy.titlePosition s' = Legacy.titlePosition s /\
   Legacy.qrCodePosition s' = Legacy.qrCodePosition s /\
   Legacy.watchWidth s' = Legacy.watchWidth s /\
   Legacy.watchHeight s' = Legacy.watchHeight s).
Proof.
  intros Hg s'. subst s'. unfold LegacyForm.handleSubmit.
  pose proof (legacy_form_clean isUrl v) as Hc.
  destruct (Form.clean (LegacyForm.formSchema isUrl v)) eqn:Ec.
  - pose proof (proj1 Hc eq_refl) as Hv.
    destruct (proj1 Hc eq_refl) as (_ & _ & (f & Ef & _) & _).
    assert (Estep : match Form.image v with
                    | Some (file :: _) =>
                        Legacy.step m
                          (Legacy.Submit (LegacyForm.readAsDataURL reads file)) s
                    | _ => s
                    end
                    = Legacy.onSubmit (LegacyForm.readAsDataURL reads f) s)
      by (rewrite Ef; reflexivity).
    rewrite Estep.
    split; [split; [intros _; exact Hv | reflexivity]|].
    split; [cbn; discriminate|].
    intros _. split.
    { exists f. split; [exact Ef|].
      unfold LegacyForm.readAsDataURL. split; intro Hr; rewrite Hr; reflexivity. }
    repeat split; reflexivity.
  - split; [split; [intro H; congruence|]|].
    + intro Hv. assert (E : false = true) by (apply Hc; exact Hv). discriminate E.
    + split; [reflexivity | intro H; congruence].
Qed.

Lemma legacy_submission_generates_iff_witness :
  let m := {| titleSize := {| width := 300; height := 60 |};
              subtitleSize := {| width := 200; height := 36 |};
              qrCodeSize := {| width := 100; height := 100 |} |} in
  let pic := Editor.mkImageData "data:image/png;base64,AAAA" 2000 1000 in
  let v := {| Form.title := VString "Issue 12"; Form.subtitle := VUndefined;
              Form.url := VString "https://example.org/";
              Form.image := Some [Upload.mkFile 120000 "image/png" pic];
              Form.width := VString "0"; Form.height := VString "1000" |} in
  let s' := LegacyForm.handleSubmit (fun _ => true) (fun _ => false) m v
              Legacy.initialState in
  Legacy.imageSize s' = {| width := 800; height := 600 |} /\
  Legacy.imagePreview s' = None.
Proof.
  intros m pic v s'.
  pose proof (legacy_submission_generates_iff (fun _ => true) (fun _ => false) m v
                Legacy.initialState eq_refl) as H.
  cbv zeta in H. destruct H as (_ & _ & H).
  destruct (H eq_refl) as ((f & Ef & _ & Hn) & Hsz & _).
  split; [subst s'; rewrite Hsz; reflexivity|].
  apply Hn. injection Ef as <-. reflexivity.
Defined.
